(** * Real-time vibration analysis: a shallow embedding of VIBRATION.py

    The script receives accelerometer records over a WebSocket, keeps the most
    recent ones in a Python list, band-limits each axis with two Butterworth
    filters, reports RMS and kurtosis, and plots a discrete wavelet
    decomposition of each filtered axis.

    Numbers are IEEE binary64 values (Rocq's primitive floats), as numpy's
    float64.  Python lists that are shared and mutated live in a heap.  The
    functions imported from scipy, numpy and PyWavelets are fields of type
    classes; what a theorem needs from them is a hypothesis of that theorem. *)

From Stdlib Require Import Floats ZArith Uint63.
From stdpp Require Import gmap strings list.

(** ** Exceptions and results *)

(** The exceptions the script can meet.  The source names only
    [websocket.WebSocketException] and the catch-all [Exception]; the others
    are what the imported packages raise. *)
Inductive exn : Type :=
  | WebSocketException
  | JSONDecodeError
  | ValueError
  | OSError.

Inductive result (A : Type) : Type :=
  | Ok (a : A)
  | Raise (e : exn).
Arguments Ok {A} a.
Arguments Raise {A} e.

#[global] Instance result_ret : MRet result := fun _ a => Ok a.
#[global] Instance result_bind : MBind result := fun _ _ f m =>
  match m with
  | Ok a => f a
  | Raise e => Raise e
  end.

Definition is_ok {A} (r : result A) : bool :=
  match r with Ok _ => true | Raise _ => false end.

(** ** Records received from the device *)

(** [json.loads] of one message: an object whose fields are numbers. *)
Abbreviation record := (gmap string float).

Definition sample (t x y z : float) : record :=
  <["Time" := t]> (<["X" := x]> (<["Y" := y]> (<["Z" := z]> ∅))).

Definition float_of_nat (n : nat) : float :=
  PrimFloat.of_uint63 (Uint63.of_Z (Z.of_nat n)).

(** ** The buffer of [fetch_data_ws] *)

Module Buffer.

(** The literal of [if len(real_time_data_stream) >= 100]. *)
Definition buffer_limit : nat := 100.

(** One pass through the body of the [while True] loop, on the contents of
    the list: [append(data)], then [pop(0)] when the length has reached
    [limit].  The source has [limit = 100]. *)
Definition push_with {A} (limit : nat) (buf : list A) (data : A) : list A :=
  let buf := buf ++ [data] in
  if limit <=? length buf then drop 1 buf else buf.

Definition push {A} : list A -> A -> list A := push_with buffer_limit.

(** The contents after a sequence of messages, starting from [[]]. *)
Definition pushes {A} (limit : nat) (datas : list A) : list A :=
  fold_left (push_with limit) datas [].

Definition timestamps (buf : list record) : list (option float) :=
  (fun r : record => r !! "Time") <$> buf.

End Buffer.

(** ** What the page shows *)

Inductive report : Type :=
  | WebSocketErrorReport          (* "WebSocket error: ..." *)
  | DataFormatReport              (* "Data format is incorrect. ..." *)
  | AnalysisErrorReport (e : exn). (* "Error in real-time analysis: ..." *)

Inductive notice : Type :=
  | NoValidData                   (* "No valid data received for unpacking. ..." *)
  | PressStart.                   (* "Press 'Start Real-Time Analysis' ..." *)

Record axis_stats : Type := { RMS : float; Kurtosis : float }.

Record stats_dict : Type :=
  { stats_X : axis_stats; stats_Y : axis_stats; stats_Z : axis_stats }.

(** [go.Scatter3d(x=t, y=[level] * len(t), z=amplitude, name=f'Level {level}')]
    and [go.Scatter(x=t, y=amplitude, name=f'Level {level}')]. *)
Inductive trace : Type :=
  | Scatter3d (x : list float) (y : list nat) (z : list float) (level : nat)
  | Scatter (x : list float) (y : list float) (level : nat).

Record figure : Type := { fig_traces : list trace; fig_title : string }.

Inductive effect : Type :=
  | st_info
  | st_success
  | st_warning (n : notice)
  | st_error (r : report)
  | st_write (text : string)
  | st_json (stats : stats_dict)
  | st_columns (n : nat)
  | st_plotly_chart (fig : figure)
  | time_sleep
  | ws_close.

(** Code that writes to the page and may raise: what was written so far,
    then the value or the exception. *)
Definition ui (A : Type) : Type := list effect * result A.

#[global] Instance ui_ret : MRet ui := fun _ a => ([], Ok a).
#[global] Instance ui_bind : MBind ui := fun _ _ f m =>
  match m with
  | (w, Ok a) => let '(w', r) := f a in (w ++ w', r)
  | (w, Raise e) => (w, Raise e)
  end.

Definition emit (e : effect) : ui unit := ([e], Ok tt).
Definition lift {A} (r : result A) : ui A := ([], r).

(** ** The heap: Python list objects *)

Definition loc := nat.
Abbreviation heap := (gmap loc (list record)).

(** What [ws.recv()] followed by [json.loads] can do in one iteration, for
    a device that sends objects of numbers.  A frame that decodes to
    something else (a number, an array, an object holding a string) is not
    among the events: what pandas and scipy make of it is outside this
    development. *)
Inductive ws_event : Type :=
  | WsMessage (data : record)   (* a frame that decodes to an object *)
  | WsBadJson                   (* a frame [json.loads] rejects *)
  | WsError.                    (* [ws.recv()] raises WebSocketException *)

(** What the generator does when asked for its next value. *)
Inductive gen_out : Type :=
  | Yield (snapshot : loc)
  | Return
  | Throw (e : exn).

Module Generator.
Import Buffer.

(** [real_time_data_stream = []]: a new list object. *)
Definition new_list (h : heap) : loc * heap :=
  let l := fresh (dom h) in (l, <[l := []]> h).

Definition list_append (l : loc) (data : record) (h : heap) : heap :=
  alter (fun buf => buf ++ [data]) l h.

Definition list_len (l : loc) (h : heap) : nat := length (h !!! l).

(** [pop(0)]; the list is never empty here, it has just been appended to. *)
Definition list_pop0 (l : loc) (h : heap) : heap := alter (drop 1) l h.

(** One iteration of the [while True] loop of [fetch_data_ws]; [stream] is
    the reference held by the local [real_time_data_stream].  The value
    yielded is that reference.  A WebSocketException is caught inside the
    generator, any other exception leaves it; [finally] closes the socket
    on both paths. *)
Definition next_with (limit : nat) (stream : loc) (ev : ws_event) (h : heap)
  : heap * (list effect * gen_out) :=
  match ev with
  | WsMessage data =>
      let h := list_append stream data h in
      let h := if limit <=? list_len stream h then list_pop0 stream h else h in
      (h, ([], Yield stream))
  | WsBadJson => (h, ([ws_close], Throw JSONDecodeError))
  | WsError => (h, ([st_error WebSocketErrorReport; ws_close], Return))
  end.

Definition next : loc -> ws_event -> heap -> heap * (list effect * gen_out) :=
  next_with buffer_limit.

(** The generator driven through a list of events: the final heap and the
    snapshots yielded, in order.  It stops at the first event that does not
    yield. *)
Fixpoint run (limit : nat) (stream : loc) (evs : list ws_event) (h : heap)
  : heap * list loc :=
  match evs with
  | [] => (h, [])
  | ev :: evs =>
      match next_with limit stream ev h with
      | (h, (_, Yield s)) =>
          let '(h', ss) := run limit stream evs h in (h', s :: ss)
      | (h, _) => (h, [])
      end
  end.

End Generator.

(** ** The imported packages *)

(** [btype='low'] and [btype='high']. *)
Inductive btype : Type := lowpass | highpass.

(** [scipy.signal.butter] returns the pair [(b, a)] of coefficient arrays or
    raises; [scipy.signal.filtfilt] returns the filtered array or raises;
    [scipy.stats.kurtosis] returns a number. *)
Class SciPy : Type :=
  { butter : nat -> float -> btype -> result (list float * list float);
    filtfilt : list float -> list float -> list float -> result (list float);
    kurtosis : list float -> float }.

(** [np.sum] over a float array (the order of the additions is numpy's own)
    and [np.linspace(start, stop, num)]. *)
Class NumPy : Type :=
  { np_sum : list float -> float;
    np_linspace : float -> float -> nat -> list float }.

(** PyWavelets: the one-level transform [pywt.dwt], which gives the pair
    (approximation, detail), and the checks [pywt.wavedec] makes on the
    wavelet name and the level before it transforms anything ([None] when it
    accepts them). *)
Class PyWavelets : Type :=
  { dwt : list float -> string -> list float * list float;
    wavedec_check : list float -> string -> nat -> option exn }.

(** ** numpy arithmetic on arrays *)

(** [signal ** 2]. *)
Definition np_square (x : list float) : list float :=
  (fun v => v * v)%float <$> x.

(** [np.mean]: the sum over the number of elements (a NaN for no element). *)
Definition np_mean `{NumPy} (x : list float) : float :=
  (np_sum x / float_of_nat (length x))%float.

Definition np_abs (x : list float) : list float := PrimFloat.abs <$> x.

(** ** The filter *)

(** [combined_filter(data, lowcut, highcut, fs, order=5)]; [order = None] is
    a call that leaves the argument out.  The division is the IEEE one,
    which is Python's for every divisor but zero: for [0.5 * fs = 0] Python
    raises ZeroDivisionError instead.  The script calls with [fs = 1000]. *)
Definition combined_filter `{SciPy} (data : list float)
    (lowcut highcut fs : float) (order : option nat) : result (list float) :=
  let order := default 5 order in
  '(b_low, a_low) ← butter order (lowcut / (0.5 * fs))%float lowpass;
  low_passed ← filtfilt b_low a_low data;
  '(b_high, a_high) ← butter order (highcut / (0.5 * fs))%float highpass;
  filtfilt b_high a_high low_passed.

(** ** Statistics and [process_data] *)

(** The columns of [pd.DataFrame(data)] for a list of objects: every key of
    every record; a record that lacks a key has NaN there. *)
Definition df_columns (data : list record) : gset string :=
  ⋃ (dom <$> data).

Definition df_values (data : list record) (col : string) : list float :=
  (fun r : record => default PrimFloat.nan (r !! col)) <$> data.

Definition required_columns : list string := ["Time"; "X"; "Y"; "Z"].

Definition has_required_columns (data : list record) : bool :=
  forallb (fun col => bool_decide (col ∈ df_columns data)) required_columns.

(** One entry of the [stats] dictionary:
    [{"RMS": np.sqrt(np.mean(s ** 2)), "Kurtosis": kurtosis(s)}]. *)
Definition stats_of `{SciPy} `{NumPy} (s : list float) : axis_stats :=
  {| RMS := PrimFloat.sqrt (np_mean (np_square s)); Kurtosis := kurtosis s |}.

Definition filtered : Type :=
  list float * list float * list float * list float.

(** [process_data(data, lowcut, highcut, wavelet_type, decomposition_level,
    fs=1000)]; [data] is what the list reads as when the DataFrame is built. *)
Definition process_data `{SciPy} `{NumPy} (data : list record)
    (lowcut highcut : float) (wavelet_type : string) (decomposition_level : nat)
    (fs : option float) : ui (option filtered) :=
  let fs := default 1000%float fs in
  if negb (has_required_columns data) then
    emit (st_error DataFormatReport);; mret None
  else
    let timestamp := df_values data "Time" in
    let x := df_values data "X" in
    let y := df_values data "Y" in
    let z := df_values data "Z" in
    x_filtered_signal ← lift (combined_filter x lowcut highcut fs None);
    y_filtered_signal ← lift (combined_filter y lowcut highcut fs None);
    z_filtered_signal ← lift (combined_filter z lowcut highcut fs None);
    let stats :=
      {| stats_X := stats_of x_filtered_signal;
         stats_Y := stats_of y_filtered_signal;
         stats_Z := stats_of z_filtered_signal |} in
    emit (st_write "### Scientific Metrics (RMS and Kurtosis)");;
    emit (st_json stats);;
    mret (Some (timestamp, x_filtered_signal, y_filtered_signal, z_filtered_signal)).

(** ** The wavelet decomposition and its plot *)

(** Modelled from the spec: [pywt.wavedec] belongs to the PyWavelets package
    and is not among the source files.  The spec has it split the signal
    [levels] times, each step replacing the current approximation by a new
    (approximation, detail) pair, giving [levels] detail bands and one final
    approximation; the result lists the approximation first and the details
    from the coarsest to the finest, which is how [plot_dwt_analysis] indexes
    it.  [coeffs_list] holds the details found so far, the latest first. *)
Fixpoint wavedec_loop `{PyWavelets} (wavelet : string) (level : nat)
    (a : list float) (coeffs_list : list (list float)) : list (list float) :=
  match level with
  | 0 => a :: coeffs_list
  | S level =>
      let '(a, d) := dwt a wavelet in
      wavedec_loop wavelet level a (d :: coeffs_list)
  end.

Definition wavedec `{PyWavelets} (data : list float) (wavelet : string)
    (level : nat) : result (list (list float)) :=
  match wavedec_check data wavelet level with
  | Some e => Raise e
  | None => Ok (wavedec_loop wavelet level data [])
  end.

(** The two values of the "Graph Type" radio button. *)
Inductive graph : Type := Graph3D | Graph2D.

(** The trace added for one [level] of [range(1, levels + 1)]. *)
Definition level_trace (graph_type : graph) (time_indices coeffs : list (list float))
    (level : nat) : trace :=
  let t := time_indices !!! level in
  let amplitude := np_abs (coeffs !!! level) in
  match graph_type with
  | Graph3D => Scatter3d t (replicate (length t) level) amplitude level
  | Graph2D => Scatter t amplitude level
  end.

(** [plot_dwt_analysis(timestamp, signal, title, wavelet_type,
    decomposition_level, graph_type)]. *)
Definition plot_dwt_analysis `{PyWavelets} `{NumPy} (timestamp signal : list float)
    (title wavelet_type : string) (decomposition_level : nat)
    (graph_type : graph) : ui unit :=
  coeffs ← lift (wavedec signal wavelet_type decomposition_level);
  let levels := length coeffs - 1 in
  let time_indices :=
    (fun c : list float =>
       np_linspace 0%float (float_of_nat (length signal)) (length c)) <$> coeffs in
  let traces := level_trace graph_type time_indices coeffs <$> seq 1 levels in
  let layout_title :=
    match graph_type with
    | Graph3D => title +:+ " - Time vs Level vs Amplitude"
    | Graph2D => title +:+ " - Time vs Amplitude"
    end in
  emit (st_plotly_chart {| fig_traces := traces; fig_title := layout_title |}).

(** ** The sidebar and the analysis loop *)

Record config : Type :=
  { cfg_ws_url : string;
    cfg_lowcut : float;
    cfg_highcut : float;
    cfg_wavelet_type : string;
    cfg_decomposition_level : nat;
    cfg_graph_type : graph }.

(** How the run of the script stands after the events it was given. *)
Inductive outcome : Type :=
  | NotStarted        (* the button was not pressed *)
  | Receiving         (* every event consumed; blocked in [ws.recv()] *)
  | SourceClosed      (* the generator returned and the [for] loop ended *)
  | Failed (e : exn). (* an exception left the [for] loop, [except Exception] caught it *)

Section Script.
Context `{SciPy} `{NumPy} `{PyWavelets}.

(** The body of the [for] loop, given what the yielded list reads as. *)
Definition cycle (cfg : config) (real_time_data : list record) : ui unit :=
  results ← process_data real_time_data (cfg_lowcut cfg) (cfg_highcut cfg)
              (cfg_wavelet_type cfg) (cfg_decomposition_level cfg) None;
  match results with
  | Some (timestamp, x_filtered_signal, y_filtered_signal, z_filtered_signal) =>
      emit st_success;;
      emit (st_columns 3);;
      emit (st_write "### X-Axis Vibration Analysis");;
      plot_dwt_analysis timestamp x_filtered_signal "X-Axis Vibration"
        (cfg_wavelet_type cfg) (cfg_decomposition_level cfg) (cfg_graph_type cfg);;
      emit (st_write "### Y-Axis Vibration Analysis");;
      plot_dwt_analysis timestamp y_filtered_signal "Y-Axis Vibration"
        (cfg_wavelet_type cfg) (cfg_decomposition_level cfg) (cfg_graph_type cfg);;
      emit (st_write "### Z-Axis Vibration Analysis");;
      plot_dwt_analysis timestamp z_filtered_signal "Z-Axis Vibration"
        (cfg_wavelet_type cfg) (cfg_decomposition_level cfg) (cfg_graph_type cfg)
  | None => emit (st_warning NoValidData)
  end;;
  emit time_sleep.

(** [try: for real_time_data in fetch_data_ws(...): ... except Exception],
    over the events the socket delivers.  The [try] encloses the whole
    loop.  When the body raises, the exception leaves the [for] statement
    with the generator suspended at its [yield]: the loop drops its iterator
    on the way out, the generator is closed, and its [finally] closes the
    socket before the handler writes its report. *)
Fixpoint analysis_loop (cfg : config) (stream : loc) (evs : list ws_event)
    (h : heap) : heap * (list effect * outcome) :=
  match evs with
  | [] => (h, ([], Receiving))
  | ev :: evs =>
      match Generator.next stream ev h with
      | (h, (w, Yield real_time_data)) =>
          match cycle cfg (h !!! real_time_data) with
          | (w1, Ok _) =>
              let '(h', (w2, s)) := analysis_loop cfg stream evs h in
              (h', (w ++ w1 ++ w2, s))
          | (w1, Raise e) =>
              (h, (w ++ w1 ++ [ws_close; st_error (AnalysisErrorReport e)], Failed e))
          end
      | (h, (w, Return)) => (h, (w, SourceClosed))
      | (h, (w, Throw e)) =>
          (h, (w ++ [st_error (AnalysisErrorReport e)], Failed e))
      end
  end.

(** The script from the button on; [connect] is the exception of
    [websocket.create_connection], if it raises one. *)
Definition main (cfg : config) (button : bool) (connect : option exn)
    (evs : list ws_event) (h : heap) : heap * (list effect * outcome) :=
  if button then
    match connect with
    | Some e => (h, ([st_info; st_error (AnalysisErrorReport e)], Failed e))
    | None =>
        let '(stream, h) := Generator.new_list h in
        let '(h, (w, s)) := analysis_loop cfg stream evs h in
        (h, (st_info :: w, s))
    end
  else (h, ([st_warning PressStart], NotStarted)).

End Script.

(** ** Reference instances of the packages

    Small executable stand-ins, used to run the script on concrete inputs.
    They keep what the packages document about the arguments they refuse and
    the shapes they return; the numbers they compute are simpler than the
    packages' own. *)

Module Reference.

Fixpoint dot (c v : list float) : float :=
  match c, v with
  | c0 :: c, v0 :: v => (c0 * v0 + dot c v)%float
  | _, _ => 0%float
  end.

(** The difference equation
    [a0 y(n) = b0 x(n) + ... + bM x(n-M) - a1 y(n-1) - ... - aN y(n-N)]. *)
Fixpoint lfilter_from (b a xs past_x past_y : list float) : list float :=
  match xs with
  | [] => []
  | x :: xs =>
      let past_x := x :: past_x in
      let y := ((dot b past_x - dot (tail a) past_y) / hd 1 a)%float in
      y :: lfilter_from b a xs past_x (y :: past_y)
  end.

Definition lfilter (b a x : list float) : list float :=
  lfilter_from b a x [] [].

(** A critical frequency outside ]0, 1[ is refused with ValueError; the
    coefficient arrays have [order + 1] entries.  The filters are a moving
    average and its complement. *)
Definition butter_ref (order : nat) (Wn : float) (bt : btype)
  : result (list float * list float) :=
  if (Wn <=? 0)%float || (1 <=? Wn)%float then Raise ValueError
  else
    let w := (1 / float_of_nat (S order))%float in
    let a := 1%float :: replicate order 0%float in
    match bt with
    | lowpass => Ok (replicate (S order) w, a)
    | highpass => Ok ((1 - w)%float :: replicate order (- w)%float, a)
    end.

(** Forward and backward passes; an input no longer than the default
    [padlen = 3 * max(len(a), len(b))] is refused with ValueError. *)
Definition filtfilt_ref (b a x : list float) : result (list float) :=
  if length x <=? 3 * Nat.max (length a) (length b) then Raise ValueError
  else Ok (rev (lfilter b a (rev (lfilter b a x)))).

Definition np_sum_ref (x : list float) : float :=
  fold_left PrimFloat.add x 0%float.

(** [num] evenly spaced values from [start] to [stop]; one value is
    [start] alone. *)
Definition np_linspace_ref (start stop : float) (num : nat) : list float :=
  match num with
  | 1 => [start]
  | _ =>
      let step := ((stop - start) / float_of_nat (num - 1))%float in
      (fun i => (start + float_of_nat i * step)%float) <$> seq 0 num
  end.

Definition numpy : NumPy :=
  {| np_sum := np_sum_ref; np_linspace := np_linspace_ref |}.

(** Excess kurtosis from the biased central moments. *)
Definition kurtosis_ref (x : list float) : float :=
  let mean := @np_mean numpy in
  let m := mean x in
  let d := (fun v => v - m)%float <$> x in
  let m2 := mean (np_square d) in
  let m4 := mean (np_square (np_square d)) in
  (m4 / (m2 * m2) - 3)%float.

(** Pairs of neighbours; an odd last sample is paired with itself
    (symmetric extension). *)
Fixpoint haar_pairs (x : list float) : list (float * float) :=
  match x with
  | [] => []
  | [u] => [(u, u)]
  | u :: v :: x => (u, v) :: haar_pairs x
  end.

Definition haar_dwt (x : list float) (wavelet : string)
  : list float * list float :=
  let ps := haar_pairs x in
  let r := PrimFloat.sqrt 2%float in
  ((fun p : float * float => (p.1 + p.2) / r)%float <$> ps,
   (fun p : float * float => (p.1 - p.2) / r)%float <$> ps).

(** An unknown wavelet name is refused with ValueError.  No level is
    refused: the package answers a level beyond the useful depth with a
    warning and transforms all the same. *)
Definition wavedec_check_ref (data : list float) (wavelet : string)
    (level : nat) : option exn :=
  if bool_decide (wavelet ∈ ["haar"; "db1"]) then None else Some ValueError.

Definition scipy : SciPy :=
  {| butter := butter_ref; filtfilt := filtfilt_ref; kurtosis := kurtosis_ref |}.
Definition pywt : PyWavelets :=
  {| dwt := haar_dwt; wavedec_check := wavedec_check_ref |}.

(** The sidebar's initial values, with a wavelet the stand-in knows. *)
Definition default_config : config :=
  {| cfg_ws_url := "ws://192.168.1.1:80";
     cfg_lowcut := 0.5%float;
     cfg_highcut := 20%float;
     cfg_wavelet_type := "haar";
     cfg_decomposition_level := 3;
     cfg_graph_type := Graph3D |}.

(** A record with every field, all three axes reading the same. *)
Definition reading (t v : float) : record := sample t v v v.

Definition ramp (n : nat) : list float := float_of_nat <$> seq 1 n.

(** [n] such records, with the timestamps 1 to [n]. *)
Definition readings (n : nat) : list record :=
  (fun t => reading t t) <$> ramp n.

End Reference.

(** ** The band filter in the words of the specification *)

Module BandFilter.

Record FilterSpec : Type :=
  { lowCutoffHz : float;
    highCutoffHz : float;
    sampleRateHz : float;
    order : nat }.

Section Apply.
Context `{SciPy}.

(** Zero-phase filtering of [signal] with a designed filter: the
    forward-backward routine of the package. *)
Definition zero_phase (design : result (list float * list float))
    (signal : list float) : result (list float) :=
  '(b, a) ← design; filtfilt b a signal.

Definition nyquist (spec : FilterSpec) : float :=
  (0.5 * sampleRateHz spec)%float.

(** A low-pass filter at the low cutoff applied to the raw signal, then
    a high-pass filter at the high cutoff applied to the low-pass
    output. *)
Definition apply (signal : list float) (spec : FilterSpec)
  : result (list float) :=
  low_passed ←
    zero_phase (butter (order spec) (lowCutoffHz spec / nyquist spec)%float lowpass)
      signal;
  zero_phase (butter (order spec) (highCutoffHz spec / nyquist spec)%float highpass)
    low_passed.
End Apply.

End BandFilter.

(** ** What the packages document about their arguments *)

(** The critical frequency [butter] is given for [cutoff]: the cutoff over
    the Nyquist frequency [0.5 * fs].  It is refused when it is not inside
    ]0, 1[, which for a positive sample rate is when the cutoff is at most 0
    or at least Nyquist. *)
Definition normalized (cutoff fs : float) : float := (cutoff / (0.5 * fs))%float.

Definition outside_unit (Wn : float) : bool :=
  ((Wn <=? 0) || (1 <=? Wn))%float.

(** The Nyquist frequency [0.5 * fs] as the code computes it is a positive
    number, not an infinity. *)
Definition positive_nyquist (fs : float) : bool :=
  ((0 <? 0.5 * fs) && (0.5 * fs <? infinity))%float.

(** A cutoff that is at most 0 or at least the Nyquist frequency. *)
Definition invalid_cutoff (cutoff fs : float) : bool :=
  ((cutoff <=? 0) || (0.5 * fs <=? cutoff))%float.

Section Contracts.
Context `{SciPy}.

(** "Digital filter critical frequencies must be 0 < Wn < 1". *)
Definition butter_refuses : Prop :=
  forall order Wn bt, outside_unit Wn = true -> exists e, butter order Wn bt = Raise e.

(** The coefficient arrays of an order-[n] filter have [n + 1] entries. *)
Definition butter_shape : Prop :=
  forall order Wn bt b a,
    butter order Wn bt = Ok (b, a) -> length b = S order /\ length a = S order.

(** "The length of the input vector x must be greater than padlen", with
    the default [padlen = 3 * max(len(a), len(b))]. *)
Definition filtfilt_refuses_short : Prop :=
  forall b a x,
    length x <= 3 * Nat.max (length a) (length b) -> exists e, filtfilt b a x = Raise e.

(** The filtered output has the shape of the input. *)
Definition filtfilt_keeps_length : Prop :=
  forall b a x y, filtfilt b a x = Ok y -> length y = length x.

(** What the two routines raise on numbers and arrays of numbers is a
    ValueError. *)
Definition scipy_raises_value_error : Prop :=
  (forall order Wn bt e, butter order Wn bt = Raise e -> e = ValueError)
  /\ (forall b a x e, filtfilt b a x = Raise e -> e = ValueError).

End Contracts.

(** ** Reading a figure *)

Definition trace_level (t : trace) : nat :=
  match t with
  | Scatter3d _ _ _ level => level
  | Scatter _ _ level => level
  end.

(** The time axis of a trace: [x=t] in both kinds of graph. *)
Definition trace_time (t : trace) : list float :=
  match t with
  | Scatter3d x _ _ _ => x
  | Scatter x _ _ => x
  end.

(** The amplitudes of a trace: [z] in three dimensions, [y] in two. *)
Definition trace_amplitude (t : trace) : list float :=
  match t with
  | Scatter3d _ _ z _ => z
  | Scatter _ y _ => y
  end.

Definition nan_or_nonneg (x : float) : bool :=
  PrimFloat.is_nan x || (0 <=? x)%float.

(** [np.linspace(start, stop, num)] returns [num] samples. *)
Definition np_linspace_keeps_num `{NumPy} : Prop :=
  forall start stop num, length (np_linspace start stop num) = num.

(** [np.sum] of numbers that are all at least 0 (none a NaN) is at least
    0: adding such numbers, in whatever order, gives such a number. *)
Definition np_sum_keeps_nonneg `{NumPy} : Prop :=
  forall x : list float,
    Forall (fun v => (0 <=? v)%float = true) x -> (0 <=? np_sum x)%float = true.

(** A mantissa and an exponent that stand for a number of at least 1:
    [m * 2 ^ e >= 1], written without fractions. *)
Definition at_least_one (m e : Z) : Prop := (0 < m /\ 2 ^ (- e) <= m)%Z.

(** The IEEE values that compare as at least 0: the zeros, the positive
    numbers and plus infinity. *)
Definition sf_nonneg (f : spec_float) : bool :=
  match f with
  | S754_zero _ => true
  | S754_infinity s => negb s
  | S754_finite s _ _ => negb s
  | S754_nan => false
  end.

(** * Properties of the buffer *)

Section BufferFacts.
Import Buffer.
Context {A : Type}.
Implicit Types (buf : list A) (data : A) (limit : nat).

Lemma push_with_below limit buf data :
  S (length buf) < limit -> push_with limit buf data = buf ++ [data].
Proof.
  intros Hlt. unfold push_with. rewrite length_app. simpl.
  destruct (Nat.leb_spec limit (length buf + 1)); [lia | reflexivity].
Qed.

Lemma push_with_reached limit buf data :
  limit <= S (length buf) -> push_with limit buf data = drop 1 (buf ++ [data]).
Proof.
  intros Hle. unfold push_with. rewrite length_app. simpl.
  destruct (Nat.leb_spec limit (length buf + 1)); [reflexivity | lia].
Qed.

(** Eviction is first-in first-out: what is dropped is the head. *)
Lemma push_with_fifo limit buf data :
  push_with limit buf data = buf ++ [data] \/
  exists old, buf ++ [data] = old :: push_with limit buf data.
Proof.
  unfold push_with.
  destruct (limit <=? length (buf ++ [data])); [right | left; reflexivity].
  destruct buf as [|old buf]; simpl; eauto.
Qed.

Lemma push_with_length limit buf data :
  length (push_with limit buf data) =
    if limit <=? S (length buf) then length buf else S (length buf).
Proof.
  unfold push_with. rewrite length_app. simpl.
  replace (length buf + 1) with (S (length buf)) by lia.
  destruct (limit <=? S (length buf)).
  - rewrite length_drop, length_app. simpl. lia.
  - rewrite length_app. simpl. lia.
Qed.

(** The list handed out holds fewer than [limit] records. *)
Lemma push_with_bound limit buf data :
  0 < limit -> length buf < limit -> length (push_with limit buf data) < limit.
Proof.
  intros Hpos Hlt. rewrite push_with_length.
  destruct (Nat.leb_spec limit (S (length buf))); lia.
Qed.

Lemma pushes_snoc limit (datas : list A) data :
  pushes limit (datas ++ [data]) = push_with limit (pushes limit datas) data.
Proof. unfold pushes. rewrite fold_left_app. reflexivity. Qed.

Lemma pushes_bound limit (datas : list A) :
  0 < limit -> length (pushes limit datas) < limit.
Proof.
  intros Hpos. induction datas as [|data datas IH] using rev_ind.
  - simpl. lia.
  - rewrite pushes_snoc. apply push_with_bound; assumption.
Qed.

End BufferFacts.

(** C1.  The specification has a push evict the oldest record only once the
    length exceeds the capacity, so that capacity 3 and timestamps 1, 2, 3, 4
    leave 2, 3, 4.  The source compares with [>=]: a push evicts as soon as
    the length reaches the limit.  With the limit 3 the same pushes leave 3, 4;
    with its own limit 100 the hundredth push already evicts and the list
    handed out holds 99 records; and for every limit the list handed out
    stays below it. *)
Theorem push_evicts_on_reaching_limit :
  Buffer.timestamps
    (Buffer.pushes 3
       [sample 1 0 0 0; sample 2 0 0 0; sample 3 0 0 0; sample 4 0 0 0])
    = [Some 3%float; Some 4%float]
  /\ length (Buffer.pushes Buffer.buffer_limit (Reference.readings 99)) = 99
  /\ length (Buffer.pushes Buffer.buffer_limit (Reference.readings 100)) = 99
  /\ (forall (buf : list record) (data : record),
        Buffer.push_with (S (length buf)) buf data = drop 1 (buf ++ [data]))
  /\ (forall (n : nat) (datas : list record),
        length (Buffer.pushes (S n) datas) <= n).
Proof.
  split; [vm_compute; reflexivity|].
  split; [vm_compute; reflexivity|].
  split; [vm_compute; reflexivity|].
  split.
  - intros buf data. apply push_with_reached. lia.
  - intros n datas. pose proof (pushes_bound (S n) datas). lia.
Qed.

(** * The generator and the list it yields *)

Section GeneratorFacts.
Import Buffer Generator.
Implicit Types (h : heap) (stream : loc) (evs : list ws_event).

(** On the contents of the list, one message is one [push_with]. *)
Lemma next_with_message limit stream data h buf :
  h !! stream = Some buf ->
  next_with limit stream (WsMessage data) h
    = (<[stream := push_with limit buf data]> h, ([], Yield stream)).
Proof.
  intros Hbuf. unfold next_with, list_append, list_len, list_pop0, push_with.
  rewrite lookup_total_alter_eq, Hbuf. simpl.
  destruct (limit <=? length (buf ++ [data])); f_equal;
    apply map_eq; intros l; destruct (decide (l = stream)) as [->|Hne];
    rewrite ?lookup_insert_eq, ?lookup_alter_eq, ?Hbuf; try reflexivity;
    rewrite lookup_insert_ne, ?lookup_alter_ne by congruence; reflexivity.
Qed.

(** A run of messages is a run of pushes on the one list, and every value
    yielded is that list. *)
Lemma run_messages limit stream (datas : list record) h buf :
  h !! stream = Some buf ->
  run limit stream (WsMessage <$> datas) h
    = (<[stream := fold_left (push_with limit) datas buf]> h,
       replicate (length datas) stream).
Proof.
  revert h buf. induction datas as [|data datas IH]; intros h buf Hbuf.
  - simpl. rewrite insert_id by exact Hbuf. reflexivity.
  - rewrite fmap_cons. cbn [run length replicate fold_left].
    rewrite (next_with_message _ _ _ _ _ Hbuf).
    rewrite (IH _ (push_with limit buf data)) by apply lookup_insert_eq.
    rewrite insert_insert_eq. reflexivity.
Qed.

(** With the limit of the source, one message is one [push]. *)
Lemma next_message stream data h buf :
  h !! stream = Some buf ->
  next stream (WsMessage data) h = (<[stream := push buf data]> h, ([], Yield stream)).
Proof. apply next_with_message. Qed.

(** Whatever is yielded is the generator's own list. *)
Lemma next_with_yield limit stream ev h h' w s :
  next_with limit stream ev h = (h', (w, Yield s)) -> s = stream.
Proof. destruct ev; simpl; intros Heq; congruence. Qed.

Lemma run_yields limit stream evs h :
  Forall (fun s => s = stream) (run limit stream evs h).2.
Proof.
  revert h. induction evs as [|ev evs IH]; intros h; simpl; [constructor|].
  destruct (next_with limit stream ev h) as [h1 [w out]] eqn:Hnext.
  destruct out as [s| |e]; simpl; try constructor.
  specialize (IH h1). destruct (run limit stream evs h1) as [h' ss]; simpl in *.
  constructor; [eapply next_with_yield; eassumption | assumption].
Qed.

End GeneratorFacts.

(** C2, amended.  The value yielded is the generator's list itself, not a
    copy.  Every snapshot yielded while the messages [datas1] arrive is the
    one reference [stream]; read at once it holds the pushes of [datas1],
    and read after the later messages [datas2] it holds the pushes of
    [datas1 ++ datas2], the current contents of the buffer. *)
Theorem snapshot_is_live_view (limit : nat) (stream : loc)
    (datas1 datas2 : list record) (h : heap) (buf : list record) :
  let h0 : heap := <[stream := buf]> h in
  let after1 := Generator.run limit stream (WsMessage <$> datas1) h0 in
  let after2 := Generator.run limit stream (WsMessage <$> (datas1 ++ datas2)) h0 in
  Forall
    (fun s : loc =>
       s = stream
       /\ after1.1 !! s = Some (fold_left (Buffer.push_with limit) datas1 buf)
       /\ after2.1 !! s
            = Some (fold_left (Buffer.push_with limit) (datas1 ++ datas2) buf))
    after1.2.
Proof.
  cbv zeta.
  rewrite !(run_messages _ _ _ _ buf) by apply lookup_insert_eq. simpl.
  apply Forall_forall. intros s Hs%elem_of_replicate. destruct Hs as [-> _].
  rewrite !lookup_insert_eq. auto.
Qed.

(** C2, counterexample: the snapshot yielded for the first message reads as
    one record then, and as two records after the second message. *)
Lemma snapshot_changes_after_push :
  let r1 := Reference.reading 1 1 in
  let r2 := Reference.reading 2 2 in
  let stream := (Generator.new_list ∅).1 in
  let h0 := (Generator.new_list ∅).2 in
  let after1 := Generator.run Buffer.buffer_limit stream [WsMessage r1] h0 in
  let after2 :=
    Generator.run Buffer.buffer_limit stream [WsMessage r1; WsMessage r2] h0 in
  exists snapshot : loc,
    after1.2 = [snapshot]
    /\ after1.1 !! snapshot = Some [r1]
    /\ after2.1 !! snapshot = Some [r1; r2]
    /\ after2.1 !! snapshot <> after1.1 !! snapshot.
Proof.
  cbv zeta. exists 0. repeat split; try (vm_compute; reflexivity).
  intros Heq. apply (f_equal (fmap (M := option) length)) in Heq.
  vm_compute in Heq. discriminate.
Qed.

(** * The filter *)

Section FilterFacts.
Context `{SciPy}.
Implicit Types (data out : list float) (lowcut highcut fs : float).

(** The stages a successful call went through, in their order. *)
Lemma combined_filter_ok data lowcut highcut fs order out :
  combined_filter data lowcut highcut fs order = Ok out <->
  exists b_low a_low low_passed b_high a_high,
    butter (default 5 order) (normalized lowcut fs) lowpass = Ok (b_low, a_low) /\
    filtfilt b_low a_low data = Ok low_passed /\
    butter (default 5 order) (normalized highcut fs) highpass = Ok (b_high, a_high) /\
    filtfilt b_high a_high low_passed = Ok out.
Proof.
  unfold combined_filter, normalized, mbind, result_bind. split.
  - destruct (butter _ _ lowpass) as [[b_low a_low]|] eqn:Hlow; [|discriminate].
    destruct (filtfilt b_low a_low data) as [low_passed|] eqn:Hlp; [|discriminate].
    destruct (butter _ _ highpass) as [[b_high a_high]|] eqn:Hhigh; [|discriminate].
    intros Hout. exists b_low, a_low, low_passed, b_high, a_high.
    repeat split; assumption.
  - intros (b_low & a_low & low_passed & b_high & a_high & -> & -> & -> & ->).
    reflexivity.
Qed.

Lemma combined_filter_is_apply data lowcut highcut fs order :
  combined_filter data lowcut highcut fs order =
    BandFilter.apply data
      {| BandFilter.lowCutoffHz := lowcut;
         BandFilter.highCutoffHz := highcut;
         BandFilter.sampleRateHz := fs;
         BandFilter.order := default 5 order |}.
Proof.
  unfold combined_filter, BandFilter.apply, BandFilter.zero_phase,
    BandFilter.nyquist, mbind, result_bind. simpl.
  destruct (butter _ _ lowpass) as [[b_low a_low]|]; reflexivity.
Qed.

Lemma combined_filter_length data lowcut highcut fs order out :
  filtfilt_keeps_length ->
  combined_filter data lowcut highcut fs order = Ok out ->
  length out = length data.
Proof.
  intros Hlen (b_low & a_low & low_passed & b_high & a_high & _ & Hlow & _ & Hhigh)
    %combined_filter_ok.
  rewrite (Hlen _ _ _ _ Hhigh). exact (Hlen _ _ _ _ Hlow).
Qed.

End FilterFacts.

(** ** The reference scipy keeps the documented contracts *)

Section ReferenceFacts.
Import Reference.

Lemma lfilter_from_length b a xs past_x past_y :
  length (lfilter_from b a xs past_x past_y) = length xs.
Proof.
  revert past_x past_y. induction xs as [|x xs IH]; intros; simpl;
    [reflexivity | f_equal; apply IH].
Qed.

Lemma reference_butter_refuses : @butter_refuses scipy.
Proof.
  intros order Wn bt Hout. exists ValueError. simpl. unfold butter_ref.
  unfold outside_unit in Hout. rewrite Hout. reflexivity.
Qed.

Lemma reference_butter_shape : @butter_shape scipy.
Proof.
  intros order Wn bt b a. simpl. unfold butter_ref.
  destruct (_ || _); [discriminate|].
  destruct bt; intros [= <- <-]; simpl; rewrite !length_replicate; auto.
Qed.

Lemma reference_filtfilt_refuses_short : @filtfilt_refuses_short scipy.
Proof.
  intros b a x Hshort. exists ValueError. simpl. unfold filtfilt_ref.
  destruct (Nat.leb_spec (length x) (3 * Nat.max (length a) (length b)));
    [reflexivity | lia].
Qed.

Lemma reference_filtfilt_keeps_length : @filtfilt_keeps_length scipy.
Proof.
  intros b a x y. simpl. unfold filtfilt_ref, lfilter.
  destruct (_ <=? _); [discriminate|]. intros [= <-].
  rewrite length_rev, lfilter_from_length, length_rev, lfilter_from_length.
  reflexivity.
Qed.

End ReferenceFacts.

(** The critical frequencies for the sample rate 1000, whose Nyquist
    frequency is 500: a cutoff of 500 or more, or of 0 or less, is outside
    ]0, 1[; the sidebar's initial cutoffs 0.5 and 20 are inside. *)
Example normalized_at_1000_hz :
  outside_unit (normalized 500 1000) = true
  /\ outside_unit (normalized 750 1000) = true
  /\ outside_unit (normalized 0 1000) = true
  /\ outside_unit (normalized (-1) 1000) = true
  /\ outside_unit (normalized 0.5 1000) = false
  /\ outside_unit (normalized 20 1000) = false
  /\ outside_unit (normalized 499.5 1000) = false.
Proof. repeat split; vm_compute; reflexivity. Qed.

(** C4.  A successful [combined_filter] is exactly: a low-pass filter
    designed at the low cutoff and applied to the raw signal by the
    forward-backward routine, then a high-pass filter designed at the high
    cutoff and applied by the same routine to the low-pass output; and on
    every input the function is the cascade the specification words. *)
Theorem combined_filter_cascade `{SciPy} (data : list float)
    (lowcut highcut fs : float) (order : option nat) :
  combined_filter data lowcut highcut fs order =
    BandFilter.apply data
      {| BandFilter.lowCutoffHz := lowcut;
         BandFilter.highCutoffHz := highcut;
         BandFilter.sampleRateHz := fs;
         BandFilter.order := default 5 order |}
  /\ forall out : list float,
       combined_filter data lowcut highcut fs order = Ok out <->
       exists b_low a_low low_passed b_high a_high,
         butter (default 5 order) (lowcut / (0.5 * fs))%float lowpass = Ok (b_low, a_low) /\
         filtfilt b_low a_low data = Ok low_passed /\
         butter (default 5 order) (highcut / (0.5 * fs))%float highpass = Ok (b_high, a_high) /\
         filtfilt b_high a_high low_passed = Ok out.
Proof.
  split; [apply combined_filter_is_apply|].
  intros out. apply combined_filter_ok.
Qed.

(** C5.  When the package's forward-backward routine returns an array of
    the shape of its input, a successful [combined_filter] returns a signal
    as long as its input; and equal signals and parameters give equal
    results. *)
Theorem combined_filter_same_length_deterministic `{SciPy}
    (Hlen : filtfilt_keeps_length) (data : list float)
    (lowcut highcut fs : float) (order : option nat) :
  (forall out : list float,
     combined_filter data lowcut highcut fs order = Ok out ->
     length out = length data)
  /\ (forall (data' : list float) (lowcut' highcut' fs' : float) (order' : option nat),
        data' = data -> lowcut' = lowcut -> highcut' = highcut -> fs' = fs ->
        order' = order ->
        combined_filter data' lowcut' highcut' fs' order'
          = combined_filter data lowcut highcut fs order).
Proof.
  split.
  - intros out. apply combined_filter_length. exact Hlen.
  - intros data' lowcut' highcut' fs' order' -> -> -> -> ->. reflexivity.
Qed.

Lemma combined_filter_same_length_witness :
  exists out : list float,
    @combined_filter Reference.scipy (Reference.ramp 19) 0.5 20 1000 None = Ok out
    /\ length out = length (Reference.ramp 19).
Proof.
  destruct (@combined_filter Reference.scipy (Reference.ramp 19) 0.5 20 1000 None)
    as [out|e] eqn:Hrun; [|vm_compute in Hrun; discriminate].
  exists out. split; [reflexivity|].
  exact (proj1 (@combined_filter_same_length_deterministic Reference.scipy
                  reference_filtfilt_keeps_length (Reference.ramp 19)
                  0.5%float 20%float 1000%float None) out Hrun).
Defined.

(** * Statistics *)

Section FloatFacts.


End FloatFacts.

(** * The wavelet decomposition *)

Section WaveletFacts.
Context `{PyWavelets} `{NumPy}.

Lemma wavedec_loop_length wavelet level a coeffs_list :
  length (wavedec_loop wavelet level a coeffs_list) = level + 1 + length coeffs_list.
Proof.
  revert a coeffs_list. induction level as [|level IH]; intros a coeffs_list; simpl.
  - reflexivity.
  - destruct (dwt a wavelet) as [a' d]. rewrite IH. simpl. lia.
Qed.

(** The approximation comes first, the detail bands follow. *)
Lemma wavedec_loop_shape wavelet level a :
  exists approximation details,
    wavedec_loop wavelet level a [] = approximation :: details /\
    length details = level.
Proof.
  pose proof (wavedec_loop_length wavelet level a []) as Hlen.
  destruct (wavedec_loop wavelet level a []) as [|approximation details];
    simpl in Hlen; [lia|].
  exists approximation, details. split; [reflexivity | lia].
Qed.

Lemma wavedec_ok signal wavelet level coeffs :
  wavedec signal wavelet level = Ok coeffs <->
  wavedec_check signal wavelet level = None /\
  coeffs = wavedec_loop wavelet level signal [].
Proof.
  unfold wavedec. destruct (wavedec_check signal wavelet level); split.
  - discriminate.
  - intros [? _]. discriminate.
  - intros [= <-]. auto.
  - intros [_ ->]. reflexivity.
Qed.

Lemma wavedec_raise signal wavelet level e :
  wavedec signal wavelet level = Raise e <->
  wavedec_check signal wavelet level = Some e.
Proof.
  unfold wavedec. destruct (wavedec_check signal wavelet level); split;
    congruence.
Qed.

(** The plot fails exactly when the decomposition does, and otherwise
    draws one trace for each band after the first. *)
Lemma plot_dwt_analysis_result timestamp signal title wavelet level graph_type :
  match wavedec signal wavelet level with
  | Ok coeffs =>
      exists fig,
        plot_dwt_analysis timestamp signal title wavelet level graph_type
          = ([st_plotly_chart fig], Ok tt) /\
        length (fig_traces fig) = length coeffs - 1
  | Raise e =>
      plot_dwt_analysis timestamp signal title wavelet level graph_type
        = ([], Raise e)
  end.
Proof.
  unfold plot_dwt_analysis, lift, emit, mbind, ui_bind.
  destruct (wavedec signal wavelet level) as [coeffs|e]; [|reflexivity].
  eexists. split; [reflexivity|]. simpl.
  rewrite length_fmap, length_seq. reflexivity.
Qed.

End WaveletFacts.

(** C7.  A decomposition that succeeds with [levels = L] returns the
    approximation band followed by exactly [L] detail bands, [L + 1] arrays
    in all, and [plot_dwt_analysis] draws one trace for each of the [L]
    detail bands. *)
Theorem wavedec_bands `{PyWavelets} `{NumPy} (timestamp signal : list float)
    (title wavelet : string) (L : nat) (graph_type : graph)
    (coeffs : list (list float)) :
  wavedec signal wavelet L = Ok coeffs ->
  length coeffs = L + 1
  /\ (exists approximation details,
        coeffs = approximation :: details /\ length details = L)
  /\ (exists fig,
        plot_dwt_analysis timestamp signal title wavelet L graph_type
          = ([st_plotly_chart fig], Ok tt)
        /\ length (fig_traces fig) = L).
Proof.
  intros Hok. pose proof (plot_dwt_analysis_result timestamp signal title wavelet
                            L graph_type) as Hplot.
  rewrite Hok in Hplot. apply wavedec_ok in Hok as [_ ->].
  rewrite wavedec_loop_length in *. simpl in *.
  split; [lia|]. split; [apply wavedec_loop_shape|].
  destruct Hplot as (fig & Hfig & Hlen). exists fig. split; [exact Hfig | lia].
Qed.

Lemma wavedec_bands_witness :
  exists coeffs : list (list float),
    @wavedec Reference.pywt (Reference.ramp 8) "haar" 3 = Ok coeffs
    /\ length coeffs = 3 + 1.
Proof.
  destruct (@wavedec Reference.pywt (Reference.ramp 8) "haar" 3)
    as [coeffs|e] eqn:Hrun; [|vm_compute in Hrun; discriminate].
  exists coeffs. split; [reflexivity|].
  exact (proj1 (@wavedec_bands Reference.pywt Reference.numpy [] (Reference.ramp 8)
                  "X-Axis Vibration" "haar" 3 Graph3D coeffs Hrun)).
Defined.

(** C8, amended.  The source makes no check of the depth: the requested
    level reaches the package unchanged, the decomposition fails exactly
    when the package's own check of the wavelet name and level refuses
    them, with the package's exception, and a level the package accepts is
    decomposed to that depth whatever the length of the signal. *)
Theorem decomposition_depth_is_not_checked `{PyWavelets} `{NumPy}
    (timestamp signal : list float) (title wavelet : string) (L : nat)
    (graph_type : graph) :
  (forall e : exn,
     (plot_dwt_analysis timestamp signal title wavelet L graph_type).2 = Raise e <->
     wavedec_check signal wavelet L = Some e)
  /\ (wavedec_check signal wavelet L = None <->
      exists coeffs : list (list float),
        wavedec signal wavelet L = Ok coeffs /\ length coeffs = L + 1).
Proof.
  pose proof (plot_dwt_analysis_result timestamp signal title wavelet L graph_type)
    as Hplot.
  split.
  - intros e. rewrite <- wavedec_raise.
    destruct (wavedec signal wavelet L) as [coeffs|e'].
    + destruct Hplot as (fig & -> & _). simpl. split; discriminate.
    + rewrite Hplot. simpl. split; congruence.
  - split.
    + intros Hcheck. eexists. split; [apply wavedec_ok; split; [exact Hcheck | reflexivity]|].
      rewrite wavedec_loop_length. simpl. lia.
    + intros (coeffs & Hok & _). apply wavedec_ok in Hok as [Hcheck _]. exact Hcheck.
Qed.

(** C8, counterexample: a signal of one sample, shorter than 2^3, is
    decomposed at level 3 into four bands, and plotted, with no error. *)
Lemma short_signal_is_decomposed :
  length [1%float] < 2 ^ 3
  /\ (exists coeffs : list (list float),
        @wavedec Reference.pywt [1%float] "haar" 3 = Ok coeffs /\ length coeffs = 4)
  /\ is_ok (@plot_dwt_analysis Reference.pywt Reference.numpy
              [1%float] [1%float] "X-Axis Vibration" "haar" 3 Graph3D).2 = true.
Proof.
  split; [simpl; lia|]. split; [|vm_compute; reflexivity].
  eexists. split; [vm_compute; reflexivity | reflexivity].
Qed.

(** * The analysis loop *)

Section LoopFacts.
Context `{SciPy} `{NumPy} `{PyWavelets}.
Implicit Types (cfg : config) (stream : loc) (h : heap) (evs : list ws_event).

(** A prefix of events the loop got through leaves it where the next
    event finds it. *)
Lemma analysis_loop_app cfg stream pre post h h0 w0 :
  analysis_loop cfg stream pre h = (h0, (w0, Receiving)) ->
  analysis_loop cfg stream (pre ++ post) h =
    let '(h', (w, s)) := analysis_loop cfg stream post h0 in (h', (w0 ++ w, s)).
Proof.
  revert h w0. induction pre as [|ev pre IH]; intros h w0; simpl.
  - intros [= -> <-]. destruct (analysis_loop cfg stream post h0) as [h' [w s]].
    reflexivity.
  - destruct (Generator.next stream ev h) as [h1 [w out]].
    destruct out as [real_time_data| |e]; [|discriminate..].
    destruct (cycle cfg (h1 !!! real_time_data)) as [w1 [[]|e]]; [|discriminate].
    destruct (analysis_loop cfg stream pre h1) as [h2 [w2 s]] eqn:Hpre.
    intros [= -> <- ->]. rewrite (IH _ _ Hpre).
    destruct (analysis_loop cfg stream post h0) as [h' [w' s']].
    rewrite <- !app_assoc. reflexivity.
Qed.

(** An exception in the body of the loop ends the loop at once. *)
Lemma analysis_loop_raise cfg stream ev post h h1 w real_time_data w1 e :
  Generator.next stream ev h = (h1, (w, Yield real_time_data)) ->
  cycle cfg (h1 !!! real_time_data) = (w1, Raise e) ->
  analysis_loop cfg stream (ev :: post) h
    = (h1, (w ++ w1 ++ [ws_close; st_error (AnalysisErrorReport e)], Failed e)).
Proof. intros Hnext Hcycle. simpl. rewrite Hnext, Hcycle. reflexivity. Qed.

(** Data without the required columns: an error message, a warning, and the
    loop goes on. *)
Lemma cycle_without_columns cfg data :
  has_required_columns data = false ->
  cycle cfg data
    = ([st_error DataFormatReport; st_warning NoValidData; time_sleep], Ok tt).
Proof.
  intros Hcols. unfold cycle, process_data. rewrite Hcols. reflexivity.
Qed.

End LoopFacts.

(** C3, amended.  An error raised while a cycle is processed is reported to
    the consumer and ends the loop: the [try] encloses the whole [for]
    loop, so after the events [pre] the loop got through, a cycle that
    raises [e] leaves the run failed: the socket is closed, the report of
    [e] is the last output, and no event after it is processed. *)
Theorem cycle_error_ends_loop `{SciPy} `{NumPy} `{PyWavelets} (cfg : config)
    (stream : loc) (pre post : list ws_event) (ev : ws_event) (h h0 h1 : heap)
    (w0 w w1 : list effect) (real_time_data : loc) (e : exn) :
  analysis_loop cfg stream pre h = (h0, (w0, Receiving)) ->
  Generator.next stream ev h0 = (h1, (w, Yield real_time_data)) ->
  cycle cfg (h1 !!! real_time_data) = (w1, Raise e) ->
  analysis_loop cfg stream (pre ++ ev :: post) h
    = (h1, (w0 ++ w ++ w1 ++ [ws_close; st_error (AnalysisErrorReport e)],
            Failed e)).
Proof.
  intros Hpre Hnext Hcycle.
  rewrite (analysis_loop_app _ _ _ _ _ _ _ Hpre).
  rewrite (analysis_loop_raise _ _ _ post _ _ _ _ _ _ Hnext Hcycle).
  reflexivity.
Qed.

Lemma cycle_error_ends_loop_witness :
  let m1 := WsMessage (Reference.reading 1 1) in
  let m2 := WsMessage (Reference.reading 2 2) in
  @analysis_loop Reference.scipy Reference.numpy Reference.pywt
      Reference.default_config 0 ([] ++ m1 :: [m2]) {[ 0 := [] ]}
    = ({[ 0 := [Reference.reading 1 1] ]},
       ([] ++ [] ++ [] ++ [ws_close; st_error (AnalysisErrorReport ValueError)],
        Failed ValueError)).
Proof.
  cbv zeta.
  apply (@cycle_error_ends_loop Reference.scipy Reference.numpy Reference.pywt
           Reference.default_config 0 [] [WsMessage (Reference.reading 2 2)]
           (WsMessage (Reference.reading 1 1)) {[ 0 := [] ]} {[ 0 := [] ]}
           {[ 0 := [Reference.reading 1 1] ]} [] [] [] 0 ValueError).
  - reflexivity.
  - vm_compute. reflexivity.
  - vm_compute. reflexivity.
Defined.

(** C3, counterexample: with a well-formed first message the first cycle
    raises (one sample is too short for the filter), the socket is closed,
    the error is reported, and the loop is over: the second message is
    never processed, the run reads the same as with the first message
    alone. *)
Lemma loop_stops_at_first_error :
  let m1 := WsMessage (Reference.reading 1 1) in
  let m2 := WsMessage (Reference.reading 2 2) in
  let run := @main Reference.scipy Reference.numpy Reference.pywt
               Reference.default_config true None in
  (run [m1; m2] ∅).2
    = ([st_info; ws_close; st_error (AnalysisErrorReport ValueError)],
       Failed ValueError)
  /\ run [m1; m2] ∅ = run [m1] ∅.
Proof. cbv zeta. split; vm_compute; reflexivity. Qed.

(** * The constants of the filter *)

Section ProcessDataFacts.
Context `{SciPy} `{NumPy}.

(** What [process_data] returns or raises, its output on the page left
    aside. *)
Lemma process_data_result data lowcut highcut wavelet_type decomposition_level fs :
  (process_data data lowcut highcut wavelet_type decomposition_level fs).2
  = if has_required_columns data then
      x ← combined_filter (df_values data "X") lowcut highcut (default 1000%float fs) None;
      y ← combined_filter (df_values data "Y") lowcut highcut (default 1000%float fs) None;
      z ← combined_filter (df_values data "Z") lowcut highcut (default 1000%float fs) None;
      Ok (Some (df_values data "Time", x, y, z))
    else Ok None.
Proof.
  unfold process_data. destruct (has_required_columns data); [|reflexivity].
  cbn [negb]. unfold mbind, ui_bind, result_bind, lift.
  destruct (combined_filter (df_values data "X") _ _ _ _) as [x|e]; [|reflexivity].
  destruct (combined_filter (df_values data "Y") _ _ _ _) as [y|e]; [|reflexivity].
  destruct (combined_filter (df_values data "Z") _ _ _ _) as [z|e]; reflexivity.
Qed.

End ProcessDataFacts.

(** C10.  Every cycle of the loop filters with the order 5 at the sample
    rate 1000, whatever the sidebar holds: the body of the loop, which calls
    [process_data] without [fs], is the three axes through [butter 5] at
    the cutoffs over [0.5 * 1000] and the forward-backward routine, then the
    statistics and the plots of what the filters returned; and each list
    the generator yields goes through that body. *)
Theorem cycle_filters_with_order_5_at_1000_hz `{SciPy} `{NumPy} `{PyWavelets}
    (cfg : config) :
  let band := fun signal : list float =>
    '(b_low, a_low) ← butter 5 (cfg_lowcut cfg / (0.5 * 1000))%float lowpass;
    low_passed ← filtfilt b_low a_low signal;
    '(b_high, a_high) ← butter 5 (cfg_highcut cfg / (0.5 * 1000))%float highpass;
    filtfilt b_high a_high low_passed in
  (forall data : list record,
     let plot := fun (signal : list float) (title : string) =>
       plot_dwt_analysis (df_values data "Time") signal title
         (cfg_wavelet_type cfg) (cfg_decomposition_level cfg) (cfg_graph_type cfg) in
     cycle cfg data =
       if has_required_columns data then
         match x ← band (df_values data "X");
               y ← band (df_values data "Y");
               z ← band (df_values data "Z");
               Ok (x, y, z) with
         | Ok (x, y, z) =>
             emit (st_write "### Scientific Metrics (RMS and Kurtosis)");;
             emit (st_json {| stats_X := stats_of x;
                              stats_Y := stats_of y;
                              stats_Z := stats_of z |});;
             emit st_success;;
             emit (st_columns 3);;
             emit (st_write "### X-Axis Vibration Analysis");;
             plot x "X-Axis Vibration";;
             emit (st_write "### Y-Axis Vibration Analysis");;
             plot y "Y-Axis Vibration";;
             emit (st_write "### Z-Axis Vibration Analysis");;
             plot z "Z-Axis Vibration";;
             emit time_sleep
         | Raise e => ([], Raise e)
         end
       else ([st_error DataFormatReport; st_warning NoValidData; time_sleep], Ok tt))
  /\ (forall (stream : loc) (ev : ws_event) (evs : list ws_event) (h : heap),
        analysis_loop cfg stream (ev :: evs) h =
          match Generator.next stream ev h with
          | (h1, (w, Yield real_time_data)) =>
              match cycle cfg (h1 !!! real_time_data) with
              | (w1, Ok _) =>
                  let '(h', (w2, s)) := analysis_loop cfg stream evs h1 in
                  (h', (w ++ w1 ++ w2, s))
              | (w1, Raise e) =>
                  (h1, (w ++ w1 ++ [ws_close; st_error (AnalysisErrorReport e)],
                        Failed e))
              end
          | (h1, (w, Return)) => (h1, (w, SourceClosed))
          | (h1, (w, Throw e)) =>
              (h1, (w ++ [st_error (AnalysisErrorReport e)], Failed e))
          end).
Proof.
  intros band. split; [|reflexivity]. intros data plot.
  assert (Hband : forall signal,
             combined_filter signal (cfg_lowcut cfg) (cfg_highcut cfg) 1000 None
             = band signal) by reflexivity.
  unfold cycle, process_data.
  destruct (has_required_columns data); [|reflexivity].
  cbn [negb default]. rewrite !Hband. clear Hband. clearbody band.
  unfold lift.
  destruct (band (df_values data "X")) as [x|e]; [|reflexivity].
  destruct (band (df_values data "Y")) as [y|e]; [|reflexivity].
  destruct (band (df_values data "Z")) as [z|e]; [|reflexivity].
  subst plot. cbn [mbind result_bind].
  unfold mbind, ui_bind, emit, mret, ui_ret.
  destruct (plot_dwt_analysis _ x _ _ _ _) as [wx [[]|ex]]; [|reflexivity].
  destruct (plot_dwt_analysis _ y _ _ _ _) as [wy [[]|ey]]; [|reflexivity].
  destruct (plot_dwt_analysis _ z _ _ _ _) as [wz [[]|ez]]; [|reflexivity].
  simpl. rewrite <- !app_assoc. simpl. rewrite <- !app_assoc. reflexivity.
Qed.

(** * Further properties of the script *)

Section FirstCycle.
Context `{SciPy} `{NumPy} `{PyWavelets}.

(** A signal of at most [3 * (order + 1)] samples is refused, whatever the
    cutoffs. *)
Lemma combined_filter_short data lowcut highcut fs order :
  butter_shape -> filtfilt_refuses_short ->
  length data <= 3 * S (default 5 order) ->
  exists e, combined_filter data lowcut highcut fs order = Raise e.
Proof.
  intros Hshape Hshort Hlen. unfold combined_filter, mbind, result_bind.
  destruct (butter _ _ lowpass) as [[b_low a_low]|e] eqn:Hlow; [|eauto].
  destruct (Hshape _ _ _ _ _ Hlow) as [Hb Ha].
  destruct (Hshort b_low a_low data) as [e He].
  - rewrite Hb, Ha, Nat.max_id. exact Hlen.
  - rewrite He. eauto.
Qed.

Lemma cycle_short cfg (data : list record) :
  butter_shape -> filtfilt_refuses_short ->
  has_required_columns data = true -> length data <= 18 ->
  exists e, cycle cfg data = ([], Raise e).
Proof.
  intros Hshape Hshort Hcols Hlen.
  destruct (combined_filter_short (df_values data "X") (cfg_lowcut cfg)
              (cfg_highcut cfg) 1000%float None Hshape Hshort) as [e He].
  { unfold df_values. rewrite length_fmap. simpl. lia. }
  exists e. unfold cycle, process_data. rewrite Hcols. cbn [negb default].
  rewrite He. reflexivity.
Qed.

End FirstCycle.

(** The first cycle never succeeds.  When the package refuses an input no
    longer than three times the number of coefficients, the first message
    that carries the four fields leaves a list of one record, the filter
    refuses it, and the loop ends there: the socket is closed and the error
    reported, and the run shows nothing else, whatever follows on the
    socket. *)
Theorem first_cycle_fails `{SciPy} `{NumPy} `{PyWavelets}
    (Hshape : butter_shape) (Hshort : filtfilt_refuses_short)
    (cfg : config) (data : record) (evs : list ws_event) :
  has_required_columns [data] = true ->
  exists e : exn,
    (main cfg true None (WsMessage data :: evs) ∅).2
      = ([st_info; ws_close; st_error (AnalysisErrorReport e)], Failed e).
Proof.
  intros Hcols.
  destruct (cycle_short cfg [data] Hshape Hshort Hcols) as [e He];
    [simpl; lia|].
  exists e. unfold main.
  destruct (Generator.new_list ∅) as [stream h0] eqn:Hnew.
  assert (Hh0 : h0 !! stream = Some []).
  { unfold Generator.new_list in Hnew. injection Hnew as <- <-.
    apply lookup_insert_eq. }
  cbn [analysis_loop]. rewrite (next_message _ _ _ _ Hh0).
  rewrite lookup_total_insert_eq.
  change (Buffer.push [] data) with [data]. rewrite He. reflexivity.
Qed.

Lemma first_cycle_fails_witness :
  exists e : exn,
    (@main Reference.scipy Reference.numpy Reference.pywt Reference.default_config
       true None [WsMessage (Reference.reading 1 1)] ∅).2
      = ([st_info; ws_close; st_error (AnalysisErrorReport e)], Failed e).
Proof.
  apply (@first_cycle_fails Reference.scipy Reference.numpy Reference.pywt
           reference_butter_shape reference_filtfilt_refuses_short).
  vm_compute. reflexivity.
Defined.

(** Data that lacks a required column costs the cycle only: the page shows
    the format error and a warning, nothing is raised, and the loop goes
    on to the next message. *)
Theorem missing_column_skips_cycle `{SciPy} `{NumPy} `{PyWavelets}
    (cfg : config) (stream : loc) (ev : ws_event) (evs : list ws_event)
    (h h1 : heap) (w : list effect) (real_time_data : loc) :
  Generator.next stream ev h = (h1, (w, Yield real_time_data)) ->
  has_required_columns (h1 !!! real_time_data) = false ->
  analysis_loop cfg stream (ev :: evs) h =
    let '(h', (w', s)) := analysis_loop cfg stream evs h1 in
    (h', (w ++ [st_error DataFormatReport; st_warning NoValidData; time_sleep] ++ w', s)).
Proof.
  intros Hnext Hcols. cbn [analysis_loop].
  rewrite Hnext, (cycle_without_columns _ _ Hcols). reflexivity.
Qed.

Lemma missing_column_skips_cycle_witness :
  let partial : record := <["Time" := 1%float]> ∅ in
  @analysis_loop Reference.scipy Reference.numpy Reference.pywt
      Reference.default_config 0 [WsMessage partial] {[ 0 := [] ]}
    = ({[ 0 := [partial] ]},
       ([] ++ [st_error DataFormatReport; st_warning NoValidData; time_sleep] ++ [],
        Receiving)).
Proof.
  cbv zeta.
  apply (@missing_column_skips_cycle Reference.scipy Reference.numpy Reference.pywt
           Reference.default_config 0 (WsMessage (<["Time" := 1%float]> ∅)) []
           {[ 0 := [] ]} {[ 0 := [<["Time" := 1%float]> ∅] ]} [] 0).
  - vm_compute. reflexivity.
  - vm_compute. reflexivity.
Defined.

(** The buffer is first-in first-out and bounded: what it holds is always
    the messages received with some of the oldest dropped, in their order
    of arrival, and fewer than the limit of them. *)
Theorem buffer_is_recent_suffix (n : nat) (datas : list record) :
  exists k : nat,
    k <= length datas
    /\ Buffer.pushes (S n) datas = drop k datas
    /\ length (Buffer.pushes (S n) datas) <= n.
Proof.
  induction datas as [|data datas IH] using rev_ind.
  - exists 0. simpl. split; [lia|]. split; [reflexivity | lia].
  - destruct IH as (k & Hk & Hpushes & _).
    pose proof (pushes_bound (S n) (datas ++ [data]) ltac:(lia)) as Hbound.
    rewrite pushes_snoc in *. rewrite Hpushes in *.
    destruct (push_with_fifo (S n) (drop k datas) data) as [Heq|[old Heq]].
    + exists k. rewrite Heq, length_app, drop_app_le by lia. simpl.
      rewrite Heq in Hbound. split; [lia|]. split; [reflexivity | lia].
    + exists (S k). rewrite length_app. simpl.
      assert (Hdrop : drop (S k) (datas ++ [data])
                      = Buffer.push_with (S n) (drop k datas) data).
      { replace (S k) with (k + 1) by lia. rewrite <- drop_drop.
        rewrite drop_app_le by lia. rewrite Heq. reflexivity. }
      rewrite Hdrop. split; [lia|]. split; [reflexivity | lia].
Qed.

(** * The buffer, the socket and the page *)

Section BufferContents.
Import Buffer.
Context {A : Type}.

(** With the limit [n + 1] the buffer holds the last [n] messages, or all
    of them while there are at most [n]. *)
Lemma pushes_drop (n : nat) (datas : list A) :
  pushes (S n) datas = drop (length datas - n) datas.
Proof.
  induction datas as [|data datas IH] using rev_ind; [reflexivity|].
  rewrite pushes_snoc, IH, length_app. simpl.
  destruct (Nat.le_gt_cases n (length datas)) as [Hfull|Hroom].
  - rewrite push_with_reached by (rewrite length_drop; lia).
    replace (length datas + 1 - n) with ((length datas - n) + 1) by lia.
    rewrite <- drop_drop. rewrite (drop_app_le datas) by lia. reflexivity.
  - rewrite push_with_below by (rewrite length_drop; lia).
    replace (length datas - n) with 0 by lia.
    replace (length datas + 1 - n) with 0 by lia. reflexivity.
Qed.

End BufferContents.

(** The buffer of the source holds exactly the latest records: after any
    sequence of messages, the last 99 of them in their order of arrival,
    or all of them while there are at most 99; for a limit [n + 1], the
    last [n]. *)
Theorem buffer_holds_the_latest {A : Type} (n : nat) (datas : list A) :
  Buffer.pushes (S n) datas = drop (length datas - n) datas
  /\ Buffer.pushes Buffer.buffer_limit datas = drop (length datas - 99) datas.
Proof.
  split.
  - apply pushes_drop.
  - unfold Buffer.buffer_limit. apply pushes_drop.
Qed.

Section LoopComposition.
Context `{SciPy} `{NumPy} `{PyWavelets}.
Implicit Types (cfg : config) (stream : loc) (h : heap) (evs : list ws_event).

(** The loop writes to its own list only. *)
Lemma next_frame stream ev h l :
  l <> stream -> (Generator.next stream ev h).1 !! l = h !! l.
Proof.
  intros Hne. unfold Generator.next, Generator.next_with.
  destruct ev as [data| |]; cbn [fst]; [|reflexivity..].
  unfold Generator.list_pop0, Generator.list_append.
  destruct (Nat.leb _ _); rewrite ?lookup_alter_ne by congruence; reflexivity.
Qed.

Lemma analysis_loop_frame cfg stream evs h l :
  l <> stream -> (analysis_loop cfg stream evs h).1 !! l = h !! l.
Proof.
  intros Hne. revert h. induction evs as [|ev evs IH]; intros h; [reflexivity|].
  cbn [analysis_loop]. pose proof (next_frame stream ev h l Hne) as Hnext.
  destruct (Generator.next stream ev h) as [h1 [w out]]. simpl in Hnext.
  destruct out as [real_time_data| |e]; simpl; [|exact Hnext..].
  destruct (cycle cfg (h1 !!! real_time_data)) as [w1 [[]|e]]; simpl; [|exact Hnext].
  specialize (IH h1). destruct (analysis_loop cfg stream evs h1) as [h2 [w2 s2]].
  simpl in *. congruence.
Qed.

End LoopComposition.

(** The page only grows and the end of a run is final: what a run shows
    for some events is the beginning of what it shows when more events
    follow, and once the run has failed or the source has closed, further
    events change nothing, neither the page nor the buffer. *)
Theorem ended_run_is_final `{SciPy} `{NumPy} `{PyWavelets} (cfg : config)
    (stream : loc) (evs1 evs2 : list ws_event) (h : heap) :
  (analysis_loop cfg stream evs1 h).2.1
    `prefix_of` (analysis_loop cfg stream (evs1 ++ evs2) h).2.1
  /\ match (analysis_loop cfg stream evs1 h).2.2 with
     | Receiving => True
     | _ => analysis_loop cfg stream (evs1 ++ evs2) h = analysis_loop cfg stream evs1 h
     end.
Proof.
  revert h. induction evs1 as [|ev evs1 IH]; intros h.
  - simpl. split; [apply prefix_nil | exact I].
  - cbn [app analysis_loop].
    destruct (Generator.next stream ev h) as [h1 [w out]].
    destruct out as [real_time_data| |e].
    + destruct (cycle cfg (h1 !!! real_time_data)) as [w1 [[]|e]].
      * specialize (IH h1).
        destruct (analysis_loop cfg stream evs1 h1) as [h2 [w2 s2]].
        destruct (analysis_loop cfg stream (evs1 ++ evs2) h1) as [h3 [w3 s3]].
        simpl in *. destruct IH as [Hpre Hfinal]. split.
        -- apply prefix_app, prefix_app, Hpre.
        -- destruct s2; try exact I; congruence.
      * simpl. split; reflexivity.
    + simpl. split; reflexivity.
    + simpl. split; reflexivity.
Qed.

(** Faults of the socket.  After events the loop got through, a
    WebSocketException ends the run as a closed source: the page shows the
    WebSocket error, the socket is closed, and no analysis error is
    reported.  A frame that is not JSON closes the socket and ends the run
    as failed, reported as an analysis error.  Neither touches the buffer,
    and nothing after is read. *)
Theorem socket_faults_end_the_run `{SciPy} `{NumPy} `{PyWavelets} (cfg : config)
    (stream : loc) (pre post : list ws_event) (h h0 : heap) (w0 : list effect) :
  analysis_loop cfg stream pre h = (h0, (w0, Receiving)) ->
  analysis_loop cfg stream (pre ++ WsError :: post) h
    = (h0, (w0 ++ [st_error WebSocketErrorReport; ws_close], SourceClosed))
  /\ analysis_loop cfg stream (pre ++ WsBadJson :: post) h
     = (h0, (w0 ++ [ws_close; st_error (AnalysisErrorReport JSONDecodeError)],
             Failed JSONDecodeError)).
Proof.
  intros Hpre. split; rewrite (analysis_loop_app _ _ _ _ _ _ _ Hpre); reflexivity.
Qed.

Lemma socket_faults_end_the_run_witness :
  let partial : record := <["Time" := 1%float]> ∅ in
  let h0 : heap := {[ 0 := [partial] ]} in
  let w0 := [st_error DataFormatReport; st_warning NoValidData; time_sleep] in
  let run := @analysis_loop Reference.scipy Reference.numpy Reference.pywt
               Reference.default_config 0 in
  run ([WsMessage partial] ++ WsError :: [WsMessage partial]) {[ 0 := [] ]}
    = (h0, (w0 ++ [st_error WebSocketErrorReport; ws_close], SourceClosed))
  /\ run ([WsMessage partial] ++ WsBadJson :: [WsMessage partial]) {[ 0 := [] ]}
     = (h0, (w0 ++ [ws_close; st_error (AnalysisErrorReport JSONDecodeError)],
             Failed JSONDecodeError)).
Proof.
  cbv zeta.
  apply (@socket_faults_end_the_run Reference.scipy Reference.numpy Reference.pywt
           Reference.default_config 0 [WsMessage (<["Time" := 1%float]> ∅)]
           [WsMessage (<["Time" := 1%float]> ∅)] {[ 0 := [] ]}).
  vm_compute. reflexivity.
Defined.

(** The script writes to the list it creates and to no other: whatever
    list objects exist when it starts read the same when it stops, whether
    the button is pressed or not and however the run ends. *)
Theorem main_leaves_other_lists_alone `{SciPy} `{NumPy} `{PyWavelets}
    (cfg : config) (button : bool) (connect : option exn)
    (evs : list ws_event) (h : heap) (l : loc) (buf : list record) :
  h !! l = Some buf ->
  (main cfg button connect evs h).1 !! l = Some buf.
Proof.
  intros Hl. unfold main. destruct button; [|exact Hl].
  destruct connect as [e|]; [exact Hl|].
  unfold Generator.new_list. set (stream := fresh (dom h)).
  assert (Hne : l <> stream).
  { intros ->. apply (is_fresh (dom h)). apply elem_of_dom. eauto. }
  pose proof (analysis_loop_frame cfg stream evs (<[stream := []]> h) l Hne) as Hframe.
  destruct (analysis_loop cfg stream evs (<[stream := []]> h)) as [h' [w s]].
  simpl in *. rewrite Hframe, lookup_insert_ne by congruence. exact Hl.
Qed.

Lemma main_leaves_other_lists_alone_witness :
  (@main Reference.scipy Reference.numpy Reference.pywt Reference.default_config
     true None [WsMessage (Reference.reading 1 1)]
     {[ 0 := [Reference.reading 7 7] ]}).1 !! 0
    = Some [Reference.reading 7 7].
Proof.
  apply (@main_leaves_other_lists_alone Reference.scipy Reference.numpy
           Reference.pywt).
  vm_compute. reflexivity.
Defined.

(** * The outcomes of [process_data] *)

(** What [process_data] leaves on the page and returns.  When it raises,
    the page shows nothing of it: no statistics of the axes already
    filtered.  When the columns are missing it shows the format error and
    returns nothing.  When it returns, the page shows the heading and the
    statistics of the three signals returned, the timestamps come back
    unfiltered, each signal has one sample for each record, and, the
    package refusing an input of at most 18 samples for the order 5, there
    are more than 18 records. *)
Theorem process_data_outcomes `{SciPy} `{NumPy}
    (Hshape : butter_shape) (Hshort : filtfilt_refuses_short)
    (Hlen : filtfilt_keeps_length)
    (data : list record) (lowcut highcut : float) (wavelet_type : string)
    (decomposition_level : nat) (fs : option float) :
  match process_data data lowcut highcut wavelet_type decomposition_level fs with
  | (page, Raise e) => page = [] /\ has_required_columns data = true
  | (page, Ok None) =>
      page = [st_error DataFormatReport] /\ has_required_columns data = false
  | (page, Ok (Some (timestamp, x, y, z))) =>
      page = [st_write "### Scientific Metrics (RMS and Kurtosis)";
              st_json {| stats_X := stats_of x;
                         stats_Y := stats_of y;
                         stats_Z := stats_of z |}]
      /\ timestamp = df_values data "Time"
      /\ length x = length data
      /\ length y = length data
      /\ length z = length data
      /\ 18 < length data
  end.
Proof.
  unfold process_data. destruct (has_required_columns data); [|simpl; auto].
  cbn [negb]. unfold mbind, ui_bind, lift.
  destruct (combined_filter (df_values data "X") _ _ _ _) as [x|e] eqn:Hx; [|auto].
  destruct (combined_filter (df_values data "Y") _ _ _ _) as [y|e] eqn:Hy; [|auto].
  destruct (combined_filter (df_values data "Z") _ _ _ _) as [z|e] eqn:Hz; [|auto].
  simpl. apply (combined_filter_length _ _ _ _ _ _ Hlen) in Hy, Hz.
  pose proof (combined_filter_length _ _ _ _ _ _ Hlen Hx) as Hxlen.
  unfold df_values in *. rewrite length_fmap in *.
  repeat (split; [congruence|]).
  destruct (Nat.lt_ge_cases 18 (length data)) as [Hlong|Hfew]; [exact Hlong|].
  destruct (combined_filter_short ((fun r : record => default PrimFloat.nan (r !! "X")) <$> data)
              lowcut highcut (default 1000%float fs) None Hshape Hshort) as [e He].
  { rewrite length_fmap. simpl. lia. }
  congruence.
Qed.

Lemma process_data_outcomes_witness :
  match @process_data Reference.scipy Reference.numpy (Reference.readings 19)
          0.5 20 "haar" 3 None with
  | (page, Raise e) => page = [] /\ has_required_columns (Reference.readings 19) = true
  | (page, Ok None) =>
      page = [st_error DataFormatReport]
      /\ has_required_columns (Reference.readings 19) = false
  | (page, Ok (Some (timestamp, x, y, z))) =>
      page = [st_write "### Scientific Metrics (RMS and Kurtosis)";
              st_json {| stats_X := @stats_of Reference.scipy Reference.numpy x;
                         stats_Y := @stats_of Reference.scipy Reference.numpy y;
                         stats_Z := @stats_of Reference.scipy Reference.numpy z |}]
      /\ timestamp = df_values (Reference.readings 19) "Time"
      /\ length x = length (Reference.readings 19)
      /\ length y = length (Reference.readings 19)
      /\ length z = length (Reference.readings 19)
      /\ 18 < length (Reference.readings 19)
  end.
Proof.
  exact (@process_data_outcomes Reference.scipy Reference.numpy
           reference_butter_shape reference_filtfilt_refuses_short
           reference_filtfilt_keeps_length (Reference.readings 19)
           0.5%float 20%float "haar" 3 None).
Defined.

(** The cutoffs are not checked before the loop starts.  When the package
    refuses a critical frequency outside ]0, 1[, a sidebar cutoff whose
    critical frequency (the cutoff over the Nyquist frequency 500) is at
    most 0 or at least 1 makes every cycle whose data has the columns
    raise in its first filter call, with nothing shown for that cycle. *)
Theorem refused_cutoff_fails_every_cycle `{SciPy} `{NumPy} `{PyWavelets}
    (Hrefuse : butter_refuses) (cfg : config) (data : list record) :
  outside_unit (cfg_lowcut cfg / (0.5 * 1000))%float = true \/
  outside_unit (cfg_highcut cfg / (0.5 * 1000))%float = true ->
  has_required_columns data = true ->
  exists e : exn, cycle cfg data = ([], Raise e).
Proof.
  intros Hbad Hcols.
  assert (Hx : exists e,
             combined_filter (df_values data "X") (cfg_lowcut cfg) (cfg_highcut cfg)
               1000%float None = Raise e).
  { unfold combined_filter, mbind, result_bind. cbn [default].
    destruct (butter 5 _ lowpass) as [[b_low a_low]|e] eqn:Hlow; [|eauto].
    destruct (filtfilt b_low a_low _) as [low_passed|e]; [|eauto].
    destruct (butter 5 _ highpass) as [[b_high a_high]|e] eqn:Hhigh; [|eauto].
    exfalso. destruct Hbad as [Hbad|Hbad].
    - destruct (Hrefuse 5 _ lowpass Hbad) as [e He]. congruence.
    - destruct (Hrefuse 5 _ highpass Hbad) as [e He]. congruence. }
  destruct Hx as [e He]. exists e.
  unfold cycle, process_data. rewrite Hcols. cbn [negb default].
  rewrite He. reflexivity.
Qed.

Lemma refused_cutoff_fails_every_cycle_witness :
  exists e : exn,
    @cycle Reference.scipy Reference.numpy Reference.pywt
      {| cfg_ws_url := "ws://192.168.1.1:80";
         cfg_lowcut := 0.5;
         cfg_highcut := 600;
         cfg_wavelet_type := "haar";
         cfg_decomposition_level := 3;
         cfg_graph_type := Graph2D |}
      (Reference.readings 19)
    = ([], Raise e).
Proof.
  apply (@refused_cutoff_fails_every_cycle Reference.scipy Reference.numpy
           Reference.pywt reference_butter_refuses).
  - right. vm_compute. reflexivity.
  - vm_compute. reflexivity.
Defined.

(** The success message comes before the plots.  When [process_data] has
    returned and the decomposition of the X axis is refused, the page
    already shows the statistics, "Data successfully fetched and
    processed." and the heading of the X axis; then the cycle raises: no
    chart is drawn and the pause is skipped. *)
Theorem plot_failure_follows_success_message `{SciPy} `{NumPy} `{PyWavelets}
    (cfg : config) (data : list record) (page : list effect)
    (timestamp x y z : list float) (e : exn) :
  process_data data (cfg_lowcut cfg) (cfg_highcut cfg) (cfg_wavelet_type cfg)
    (cfg_decomposition_level cfg) None
    = (page, Ok (Some (timestamp, x, y, z))) ->
  wavedec_check x (cfg_wavelet_type cfg) (cfg_decomposition_level cfg) = Some e ->
  cycle cfg data
    = (page ++ [st_success; st_columns 3; st_write "### X-Axis Vibration Analysis"],
       Raise e).
Proof.
  intros Hdata Hcheck. unfold cycle. rewrite Hdata.
  unfold mbind, ui_bind, emit. cbn [app].
  unfold plot_dwt_analysis at 1. unfold wavedec, lift, mbind, ui_bind.
  rewrite Hcheck. reflexivity.
Qed.

Lemma plot_failure_follows_success_message_witness :
  exists page : list effect,
    @cycle Reference.scipy Reference.numpy Reference.pywt
      {| cfg_ws_url := "ws://192.168.1.1:80";
         cfg_lowcut := 0.5;
         cfg_highcut := 20;
         cfg_wavelet_type := "no such wavelet";
         cfg_decomposition_level := 3;
         cfg_graph_type := Graph3D |}
      (Reference.readings 19)
    = (page ++ [st_success; st_columns 3; st_write "### X-Axis Vibration Analysis"],
       Raise ValueError).
Proof.
  set (cfg := {| cfg_ws_url := "ws://192.168.1.1:80";
                 cfg_lowcut := 0.5%float;
                 cfg_highcut := 20%float;
                 cfg_wavelet_type := "no such wavelet";
                 cfg_decomposition_level := 3;
                 cfg_graph_type := Graph3D |}).
  destruct (@process_data Reference.scipy Reference.numpy (Reference.readings 19)
              (cfg_lowcut cfg) (cfg_highcut cfg) (cfg_wavelet_type cfg)
              (cfg_decomposition_level cfg) None) as [page r] eqn:Hdata.
  destruct r as [[[[[timestamp x] y] z]|]|e];
    [|vm_compute in Hdata; discriminate..].
  exists page.
  apply (@plot_failure_follows_success_message Reference.scipy Reference.numpy
           Reference.pywt cfg (Reference.readings 19) page timestamp x y z
           ValueError Hdata).
  reflexivity.
Defined.

(** * What the plot shows *)

Section PlotFacts.
Context `{PyWavelets} `{NumPy}.

(** Reading a list at the indices [1], ..., [length - 1] gives the list
    without its head. *)
Lemma lookup_total_seq_tail {B C} `{Inhabited B} (l : list B) (f : B -> C) :
  (fun i => f (l !!! i)) <$> seq 1 (length l - 1) = f <$> drop 1 l.
Proof.
  apply list_eq. intros i. rewrite !list_lookup_fmap, lookup_drop.
  destruct (Nat.lt_ge_cases i (length l - 1)) as [Hlt|Hge].
  - rewrite lookup_seq_lt by exact Hlt.
    destruct (lookup_lt_is_Some_2 l (1 + i)) as [c Hc]; [lia|].
    rewrite Hc. simpl. rewrite (list_lookup_total_correct _ _ _ Hc). reflexivity.
  - rewrite lookup_seq_ge by exact Hge.
    rewrite (proj2 (lookup_ge_None l (1 + i))) by lia. reflexivity.
Qed.

Lemma level_trace_amplitude graph_type time_indices coeffs level :
  trace_amplitude (level_trace graph_type time_indices coeffs level)
    = np_abs (coeffs !!! level).
Proof. destruct graph_type; reflexivity. Qed.

Lemma level_trace_time graph_type time_indices coeffs level :
  trace_time (level_trace graph_type time_indices coeffs level)
    = time_indices !!! level.
Proof. destruct graph_type; reflexivity. Qed.

Lemma level_trace_level graph_type time_indices coeffs level :
  trace_level (level_trace graph_type time_indices coeffs level) = level.
Proof. destruct graph_type; reflexivity. Qed.

End PlotFacts.

Section AbsFacts.

(** An absolute value is a NaN or at least 0. *)
Lemma abs_nan_or_nonneg (x : float) : nan_or_nonneg (PrimFloat.abs x) = true.
Proof.
  unfold nan_or_nonneg, PrimFloat.is_nan.
  rewrite FloatAxioms.leb_spec, FloatAxioms.eqb_spec, FloatAxioms.abs_spec.
  replace (Prim2SF 0) with (S754_zero false) by (vm_compute; reflexivity).
  destruct (Prim2SF x) as [s|s| |s m e]; try reflexivity.
  unfold SFabs, SFeqb, SFleb, SFcompare. simpl.
  rewrite Z.compare_refl, Pos.compare_refl. reflexivity.
Qed.

End AbsFacts.

(** The plot draws the detail bands and nothing else.  For a decomposition
    that returned [coeffs], the figure has one trace for each band after
    the first, in the order of [coeffs], labelled 1, 2, ...; the amplitudes
    of a trace are the absolute values of its band, so each is at least 0
    or a NaN; the approximation band, the first of [coeffs], is never
    drawn.  This holds for both graph types. *)
Theorem plot_draws_the_detail_bands `{PyWavelets} `{NumPy}
    (timestamp signal : list float) (title wavelet : string) (L : nat)
    (graph_type : graph) (coeffs : list (list float)) :
  wavedec signal wavelet L = Ok coeffs ->
  exists fig : figure,
    plot_dwt_analysis timestamp signal title wavelet L graph_type
      = ([st_plotly_chart fig], Ok tt)
    /\ trace_amplitude <$> fig_traces fig = np_abs <$> drop 1 coeffs
    /\ trace_level <$> fig_traces fig = seq 1 L
    /\ Forall (Forall (fun a => nan_or_nonneg a = true))
         (trace_amplitude <$> fig_traces fig).
Proof.
  intros Hok. unfold plot_dwt_analysis, lift, emit, mbind, ui_bind. rewrite Hok.
  eexists. split; [reflexivity|]. cbn [fig_traces].
  assert (Hlen : length coeffs - 1 = L).
  { apply wavedec_ok in Hok as [_ ->]. rewrite wavedec_loop_length. simpl. lia. }
  assert (Hamp : trace_amplitude <$>
                   (level_trace graph_type
                      ((fun c : list float =>
                          np_linspace 0%float (float_of_nat (length signal)) (length c))
                         <$> coeffs) coeffs <$> seq 1 (length coeffs - 1))
                 = np_abs <$> drop 1 coeffs).
  { rewrite <- list_fmap_compose.
    rewrite <- (lookup_total_seq_tail coeffs np_abs).
    apply list_fmap_ext. intros i level _. simpl. apply level_trace_amplitude. }
  split; [exact Hamp|]. split.
  - rewrite <- list_fmap_compose, <- Hlen.
    rewrite <- (list_fmap_id (seq 1 (length coeffs - 1))) at 2.
    apply list_fmap_ext. intros i level _. simpl. apply level_trace_level.
  - rewrite Hamp. apply Forall_fmap, Forall_forall. intros band _.
    unfold np_abs. apply Forall_fmap, Forall_forall. intros a _.
    simpl. apply abs_nan_or_nonneg.
Qed.

Lemma plot_draws_the_detail_bands_witness :
  exists fig : figure,
    @plot_dwt_analysis Reference.pywt Reference.numpy [] (Reference.ramp 8)
      "X-Axis Vibration" "haar" 3 Graph2D
      = ([st_plotly_chart fig], Ok tt)
    /\ trace_level <$> fig_traces fig = seq 1 3.
Proof.
  destruct (@wavedec Reference.pywt (Reference.ramp 8) "haar" 3)
    as [coeffs|e] eqn:Hrun; [|vm_compute in Hrun; discriminate].
  destruct (@plot_draws_the_detail_bands Reference.pywt Reference.numpy []
              (Reference.ramp 8) "X-Axis Vibration" "haar" 3 Graph2D coeffs Hrun)
    as (fig & Hfig & _ & Hlevels & _).
  exists fig. split; assumption.
Defined.

(** Every trace has as many time values as amplitudes.  When
    [np.linspace] returns the number of samples it is asked for, each
    trace of the figure has a time axis as long as its amplitudes, and in
    three dimensions its middle axis has that length too and holds the
    level of the trace throughout. *)
Theorem plot_axes_have_equal_lengths `{PyWavelets} `{NumPy}
    (Hnum : np_linspace_keeps_num)
    (timestamp signal : list float) (title wavelet : string) (L : nat)
    (graph_type : graph) (coeffs : list (list float)) :
  wavedec signal wavelet L = Ok coeffs ->
  exists fig : figure,
    plot_dwt_analysis timestamp signal title wavelet L graph_type
      = ([st_plotly_chart fig], Ok tt)
    /\ Forall
         (fun t : trace =>
            length (trace_time t) = length (trace_amplitude t)
            /\ match t with
               | Scatter3d x y z level => y = replicate (length z) level
               | Scatter _ _ _ => graph_type = Graph2D
               end)
         (fig_traces fig).
Proof.
  intros Hok. unfold plot_dwt_analysis, lift, emit, mbind, ui_bind. rewrite Hok.
  eexists. split; [reflexivity|]. cbn [fig_traces].
  apply Forall_fmap, Forall_forall. intros level Hlevel.
  apply elem_of_seq in Hlevel.
  assert (Hlt : level < length coeffs) by lia.
  destruct (lookup_lt_is_Some_2 coeffs level Hlt) as [band Hband].
  assert (Htime : length (((fun c : list float =>
                              np_linspace 0%float (float_of_nat (length signal))
                                (length c)) <$> coeffs) !!! level)
                  = length (np_abs (coeffs !!! level))).
  { erewrite list_lookup_total_correct
      by (rewrite list_lookup_fmap, Hband; reflexivity).
    rewrite (list_lookup_total_correct _ _ _ Hband).
    rewrite Hnum. unfold np_abs. rewrite length_fmap. reflexivity. }
  destruct graph_type; simpl; rewrite ?Htime; auto.
Qed.

Lemma reference_np_linspace_keeps_num : @np_linspace_keeps_num Reference.numpy.
Proof.
  intros start stop num. simpl. unfold Reference.np_linspace_ref.
  destruct num as [|[|num]]; [reflexivity..|].
  rewrite length_fmap, length_seq. reflexivity.
Qed.

Lemma plot_axes_have_equal_lengths_witness :
  exists fig : figure,
    @plot_dwt_analysis Reference.pywt Reference.numpy [] (Reference.ramp 8)
      "X-Axis Vibration" "haar" 3 Graph3D
      = ([st_plotly_chart fig], Ok tt)
    /\ Forall (fun t : trace => length (trace_time t) = length (trace_amplitude t))
         (fig_traces fig).
Proof.
  destruct (@wavedec Reference.pywt (Reference.ramp 8) "haar" 3)
    as [coeffs|e] eqn:Hrun; [|vm_compute in Hrun; discriminate].
  destruct (@plot_axes_have_equal_lengths Reference.pywt Reference.numpy
              reference_np_linspace_keeps_num []
              (Reference.ramp 8) "X-Axis Vibration" "haar" 3 Graph3D coeffs Hrun)
    as (fig & Hfig & Haxes).
  exists fig. split; [exact Hfig|].
  eapply Forall_impl; [exact Haxes|]. intros t [Ht _]. exact Ht.
Defined.

(** * The newest record *)

(** Eviction never costs the record just received: after every push the
    buffer ends with the new record, and what it holds is the previous
    contents and the new record with at most the oldest one dropped. *)
Theorem push_keeps_the_newest {A : Type} (buf : list A) (data : A) :
  last (Buffer.push buf data) = Some data
  /\ (Buffer.push buf data = buf ++ [data]
      \/ exists old : A, buf ++ [data] = old :: Buffer.push buf data).
Proof.
  split; [|apply push_with_fifo].
  unfold Buffer.push, Buffer.push_with, Buffer.buffer_limit.
  destruct (Nat.leb_spec 100 (length (buf ++ [data]))) as [Hfull|Hroom].
  - destruct buf as [|old buf]; [simpl in Hfull; lia|].
    simpl. rewrite drop_0. apply last_snoc.
  - apply last_snoc.
Qed.

(** * Signs in floating point *)

Section RoundingFacts.

Lemma leb_zero_spec (x : float) : (0 <=? x)%float = sf_nonneg (Prim2SF x).
Proof.
  rewrite FloatAxioms.leb_spec.
  replace (Prim2SF 0) with (S754_zero false) by (vm_compute; reflexivity).
  destruct (Prim2SF x) as [s|s| |s m e]; try destruct s; reflexivity.
Qed.

Lemma is_nan_false_spec (x : float) :
  PrimFloat.is_nan x = false -> Prim2SF x <> S754_nan.
Proof.
  unfold PrimFloat.is_nan. rewrite FloatAxioms.eqb_spec. intros Hnan Heq.
  rewrite Heq in Hnan. discriminate.
Qed.

(** Shifting a mantissa to the right keeps it from going negative. *)
Lemma shr_1_nonneg (mrs : shr_record) :
  (0 <= shr_m mrs)%Z -> (0 <= shr_m (shr_1 mrs))%Z.
Proof.
  destruct mrs as [m r s]. simpl. destruct m as [|p|p]; [| |lia].
  - intros _. reflexivity.
  - intros _. destruct p; simpl; lia.
Qed.

Lemma iter_pos_shr_1_nonneg (p : positive) (mrs : shr_record) :
  (0 <= shr_m mrs)%Z -> (0 <= shr_m (SpecFloat.iter_pos shr_1 p mrs))%Z.
Proof.
  revert mrs. induction p as [p IH|p IH|]; intros mrs Hm; simpl.
  - apply IH, IH, shr_1_nonneg, Hm.
  - apply IH, IH, Hm.
  - apply shr_1_nonneg, Hm.
Qed.

Lemma shr_fexp_nonneg (m e : Z) (l : location) :
  (0 <= m)%Z -> (0 <= shr_m (shr_fexp prec emax m e l).1)%Z.
Proof.
  intros Hm. unfold shr_fexp, shr.
  assert (Hrec : (0 <= shr_m (shr_record_of_loc m l))%Z).
  { destruct l as [|[]]; exact Hm. }
  destruct (_ - e)%Z; simpl; [exact Hrec | | exact Hrec].
  apply iter_pos_shr_1_nonneg, Hrec.
Qed.

Lemma round_nearest_even_nonneg (m : Z) (l : location) :
  (0 <= m)%Z -> (0 <= round_nearest_even m l)%Z.
Proof.
  intros Hm. destruct l as [|[]]; simpl; try lia.
  destruct (Z.even m); lia.
Qed.

(** Rounding a mantissa that is not negative, with the sign of a positive
    number, gives a zero, a positive number or plus infinity. *)
Lemma binary_round_aux_nonneg (m e : Z) (l : location) :
  (0 <= m)%Z -> sf_nonneg (binary_round_aux prec emax false m e l) = true.
Proof.
  intros Hm. unfold binary_round_aux.
  pose proof (shr_fexp_nonneg m e l Hm) as H1.
  destruct (shr_fexp prec emax m e l) as [mrs' e']. simpl in H1.
  pose proof (shr_fexp_nonneg _ e' loc_Exact
                (round_nearest_even_nonneg _ (loc_of_shr_record mrs') H1)) as H2.
  destruct (shr_fexp prec emax _ e' loc_Exact) as [mrs'' e'']. simpl in H2.
  destruct (shr_m mrs'') as [|p|p]; [reflexivity | | lia].
  destruct (e'' <=? emax - prec)%Z; reflexivity.
Qed.

Lemma binary_round_nonneg (m : positive) (e : Z) :
  sf_nonneg (binary_round prec emax false m e) = true.
Proof.
  unfold binary_round. destruct (shl_align m e _) as [mz ez].
  apply binary_round_aux_nonneg. lia.
Qed.

Lemma SFmul_self_nonneg (f : spec_float) :
  f <> S754_nan -> sf_nonneg (SFmul prec emax f f) = true.
Proof.
  intros Hnan. destruct f as [s|s| |s m e]; try destruct s; try reflexivity;
    try congruence; simpl; apply binary_round_aux_nonneg; lia.
Qed.

Lemma SFadd_nonneg (f g : spec_float) :
  sf_nonneg f = true -> sf_nonneg g = true ->
  sf_nonneg (SFadd prec emax f g) = true.
Proof.
  destruct f as [s|s| |s m e], g as [s'|s'| |s' m' e']; try destruct s;
    try destruct s'; try discriminate; try reflexivity.
  intros _ _. simpl. destruct (shl_align m e _) as [mz ez].
  destruct (shl_align m' e' _) as [mz' ez']. simpl.
  apply binary_round_nonneg.
Qed.

Lemma SFdiv_nonneg (f : spec_float) (m : positive) (e : Z) :
  sf_nonneg f = true ->
  sf_nonneg (SFdiv prec emax f (S754_finite false m e)) = true.
Proof.
  destruct f as [s|s| |s mf ef]; try destruct s; try discriminate;
    try reflexivity.
  intros _. simpl. unfold SFdiv_core_binary.
  set (m' := match _ with Zpos _ => _ | Z0 => _ | Zneg _ => _ end).
  assert (Hm' : (0 <= m')%Z).
  { subst m'. destruct (_ - _ - _)%Z; try lia. apply Z.shiftl_nonneg. lia. }
  pose proof (Z.div_pos m' (Zpos m) Hm' ltac:(lia)) as Hq.
  unfold Z.div in Hq. destruct (Z.div_eucl m' (Zpos m)) as [q r].
  apply binary_round_aux_nonneg, Hq.
Qed.

Lemma SFsqrt_nonneg (f : spec_float) :
  sf_nonneg f = true -> sf_nonneg (SFsqrt prec emax f) = true.
Proof.
  destruct f as [s|s| |s m e]; try destruct s; try discriminate; try reflexivity.
  intros _. simpl. unfold SFsqrt_core_binary.
  set (m' := match _ with Zpos _ => _ | Z0 => _ | Zneg _ => _ end).
  pose proof (Z.sqrtrem_sqrt m') as Hq. pose proof (Z.sqrt_nonneg m') as Hs.
  destruct (Z.sqrtrem m') as [q r]. simpl in Hq. subst q.
  apply binary_round_aux_nonneg, Hs.
Qed.

End RoundingFacts.

Section SignFacts.

Lemma mul_self_nonneg (x : float) :
  PrimFloat.is_nan x = false -> (0 <=? x * x)%float = true.
Proof.
  intros Hnan%is_nan_false_spec. rewrite leb_zero_spec, FloatAxioms.mul_spec.
  apply SFmul_self_nonneg, Hnan.
Qed.

Lemma add_nonneg (x y : float) :
  (0 <=? x)%float = true -> (0 <=? y)%float = true -> (0 <=? x + y)%float = true.
Proof.
  rewrite !leb_zero_spec, FloatAxioms.add_spec. apply SFadd_nonneg.
Qed.

(** The number of samples, from 1 to 99, as a float: a positive number. *)
Lemma float_of_small_nat (n : nat) :
  0 < n < 100 ->
  exists m e, Prim2SF (float_of_nat n) = S754_finite false m e.
Proof.
  intros Hn.
  assert (Hall : forallb
                   (fun k => match Prim2SF (float_of_nat k) with
                             | S754_finite false _ _ => true
                             | _ => false
                             end) (seq 1 99) = true) by (vm_compute; reflexivity).
  rewrite forallb_forall in Hall. specialize (Hall n).
  destruct (Prim2SF (float_of_nat n)) as [s|s| |[] m e];
    try (discriminate Hall; apply in_seq; lia).
  eauto.
Qed.

Lemma div_small_nat_nonneg (x : float) (n : nat) :
  0 < n < 100 -> (0 <=? x)%float = true ->
  (0 <=? x / float_of_nat n)%float = true.
Proof.
  intros (m & e & Hn)%float_of_small_nat. rewrite !leb_zero_spec, FloatAxioms.div_spec, Hn.
  apply SFdiv_nonneg.
Qed.

Lemma sqrt_nonneg (x : float) :
  (0 <=? x)%float = true -> (0 <=? PrimFloat.sqrt x)%float = true.
Proof. rewrite !leb_zero_spec, FloatAxioms.sqrt_spec. apply SFsqrt_nonneg. Qed.

Lemma reference_np_sum_keeps_nonneg : @np_sum_keeps_nonneg Reference.numpy.
Proof.
  assert (Hfold : forall (x : list float) (acc : float),
             (0 <=? acc)%float = true ->
             Forall (fun v => (0 <=? v)%float = true) x ->
             (0 <=? fold_left PrimFloat.add x acc)%float = true).
  { induction x as [|v x IH]; intros acc Hacc Hx; [exact Hacc|].
    simpl. inversion Hx as [|? ? Hv Hx']; subst.
    apply IH; [apply add_nonneg; assumption | exact Hx']. }
  intros x Hx. apply Hfold; [reflexivity | exact Hx].
Qed.

End SignFacts.

(** The RMS of a signal that holds no NaN is at least 0, and so is not a
    NaN itself.  For every signal of 1 to 99 samples (what the buffer can
    hand over), none of them a NaN, and a sum that keeps numbers that are
    at least 0 at least 0, the square root of the mean of the squares is
    at least 0; infinite samples are allowed. *)
Theorem rms_is_nonneg_without_nan `{SciPy} `{NumPy}
    (Hsum : np_sum_keeps_nonneg) (s : list float) :
  0 < length s < 100 ->
  Forall (fun v => PrimFloat.is_nan v = false) s ->
  (0 <=? RMS (stats_of s))%float = true
  /\ PrimFloat.is_nan (RMS (stats_of s)) = false.
Proof.
  intros Hlen Hs.
  assert (Hrms : (0 <=? RMS (stats_of s))%float = true).
  { simpl. unfold np_mean. apply sqrt_nonneg.
    unfold np_square. rewrite length_fmap.
    apply div_small_nat_nonneg; [exact Hlen|].
    apply Hsum, Forall_fmap. eapply Forall_impl; [exact Hs|].
    intros v Hv. simpl. apply mul_self_nonneg, Hv. }
  split; [exact Hrms|].
  rewrite leb_zero_spec in Hrms. unfold PrimFloat.is_nan.
  rewrite FloatAxioms.eqb_spec.
  destruct (Prim2SF (RMS (stats_of s))) as [sg|sg| |sg m e]; try discriminate;
    try destruct sg; try discriminate; try reflexivity.
  unfold SFeqb, SFcompare. rewrite Z.compare_refl, Pos.compare_cont_refl. reflexivity.
Qed.

Lemma rms_is_nonneg_without_nan_witness :
  (0 <=? RMS (@stats_of Reference.scipy Reference.numpy [3%float; 4%float]))%float = true
  /\ PrimFloat.is_nan
       (RMS (@stats_of Reference.scipy Reference.numpy [3%float; 4%float])) = false.
Proof.
  apply (@rms_is_nonneg_without_nan Reference.scipy Reference.numpy
           reference_np_sum_keeps_nonneg [3%float; 4%float]).
  - simpl. lia.
  - repeat constructor.
Defined.

(** * The statistics and the signals they are computed of *)

Section StatsFacts.
Context `{SciPy} `{NumPy}.


End StatsFacts.




(** * Cutoffs the filter refuses *)

Section DigitFacts.
Local Open Scope Z_scope.

(** A mantissa of [d] binary digits lies between [2 ^ (d - 1)] and [2 ^ d]. *)
Lemma digits2_pos_bounds (m : positive) :
  2 ^ (Zpos (digits2_pos m) - 1) <= Zpos m < 2 ^ Zpos (digits2_pos m).
Proof.
  induction m as [m IH|m IH|]; simpl digits2_pos.
  - rewrite Pos2Z.inj_succ.
    replace (Z.succ (Zpos (digits2_pos m)) - 1) with (Z.succ (Zpos (digits2_pos m) - 1)) by lia.
    rewrite !Z.pow_succ_r by lia. lia.
  - rewrite Pos2Z.inj_succ.
    replace (Z.succ (Zpos (digits2_pos m)) - 1) with (Z.succ (Zpos (digits2_pos m) - 1)) by lia.
    rewrite !Z.pow_succ_r by lia. lia.
  - simpl. lia.
Qed.

Lemma shr_record_of_loc_m (m : Z) (l : location) : shr_m (shr_record_of_loc m l) = m.
Proof. destruct l as [|[]]; reflexivity. Qed.

(** Shifting right by one place halves the mantissa. *)
Lemma shr_1_m (mrs : shr_record) :
  0 <= shr_m mrs -> shr_m (shr_1 mrs) = shr_m mrs / 2.
Proof.
  destruct mrs as [m r s]. simpl. intros Hm. rewrite <- Z.div2_div.
  destruct m as [|p|p]; [reflexivity | | lia]. destruct p; reflexivity.
Qed.

Lemma iter_pos_shr_1_m (p : positive) (mrs : shr_record) :
  0 <= shr_m mrs ->
  shr_m (SpecFloat.iter_pos shr_1 p mrs) = shr_m mrs / 2 ^ Zpos p.
Proof.
  revert mrs. induction p as [p IH|p IH|]; intros mrs Hm; simpl SpecFloat.iter_pos.
  - assert (H1 : 0 <= shr_m (shr_1 mrs)) by (rewrite shr_1_m by lia; apply Z.div_pos; lia).
    assert (H2 : 0 <= shr_m (SpecFloat.iter_pos shr_1 p (shr_1 mrs))).
    { rewrite IH by lia. apply Z.div_pos; [lia|]. apply Z.pow_pos_nonneg; lia. }
    rewrite IH, IH, shr_1_m by lia.
    rewrite !Z.div_div by (try lia; apply Z.pow_pos_nonneg; lia).
    f_equal. rewrite Pos2Z.inj_xI, Z.pow_add_r, Z.pow_mul_r by lia.
    change (2 ^ 2) with 4. change (2 ^ 1) with 2.
    replace (4 ^ Zpos p) with (2 ^ Zpos p * 2 ^ Zpos p).
    + lia.
    + rewrite <- Z.pow_add_r by lia. replace (Zpos p + Zpos p) with (2 * Zpos p) by lia.
      rewrite Z.pow_mul_r by lia. reflexivity.
  - assert (H2 : 0 <= shr_m (SpecFloat.iter_pos shr_1 p mrs)).
    { rewrite IH by lia. apply Z.div_pos; [lia|]. apply Z.pow_pos_nonneg; lia. }
    rewrite IH, IH by lia.
    rewrite !Z.div_div by (try lia; apply Z.pow_pos_nonneg; lia).
    f_equal. rewrite Pos2Z.inj_xO. rewrite <- Z.pow_add_r by lia. f_equal. lia.
  - rewrite shr_1_m by lia. reflexivity.
Qed.


(** Bringing a number of at least 1 to 53 digits keeps it at least 1. *)
Lemma shr_fexp_at_least_one (m e : Z) (l : location) :
  at_least_one m e ->
  0 < shr_m (shr_fexp prec emax m e l).1 < 2 ^ 53
  /\ at_least_one (shr_m (shr_fexp prec emax m e l).1) (shr_fexp prec emax m e l).2.
Proof.
  intros [Hpos Hge]. destruct m as [|p|p]; try lia.
  pose proof (digits2_pos_bounds p) as [Hlo Hhi].
  unfold shr_fexp, Zdigits2. set (d := Zpos (digits2_pos p)) in *.
  assert (Hde : 1 <= d + e).
  { destruct (Z.le_gt_cases 1 (d + e)) as [|Hlt]; [assumption|exfalso].
    assert (2 ^ d <= 2 ^ (- e)) by (apply Z.pow_le_mono_r; lia). lia. }
  replace (fexp prec emax (d + e) - e) with (d - 53)
    by (unfold fexp, SpecFloat.emin, prec, emax; lia).
  unfold shr. destruct (d - 53) as [|n|n] eqn:Hn; cbn [fst snd].
  - rewrite shr_record_of_loc_m. replace d with 53 in Hhi by lia.
    repeat split; lia.
  - rewrite iter_pos_shr_1_m by (rewrite shr_record_of_loc_m; lia).
    rewrite shr_record_of_loc_m.
    assert (Hn0 : 0 < 2 ^ Zpos n) by (apply Z.pow_pos_nonneg; lia).
    assert (Hd : d = 53 + Zpos n) by lia.
    assert (Hlow : 2 ^ 52 <= Zpos p / 2 ^ Zpos n).
    { apply Z.div_le_lower_bound; [lia|].
      replace (d - 1) with (Zpos n + 52) in Hlo by lia.
      rewrite Z.pow_add_r in Hlo by lia. lia. }
    assert (Hup : Zpos p / 2 ^ Zpos n < 2 ^ 53).
    { apply Z.div_lt_upper_bound; [lia|].
      rewrite Hd, Z.pow_add_r in Hhi by lia. lia. }
    split; [split; [|exact Hup]|split].
    + assert (0 < 2 ^ 52) by (apply Z.pow_pos_nonneg; lia). lia.
    + assert (0 < 2 ^ 52) by (apply Z.pow_pos_nonneg; lia). lia.
    + destruct (Z.le_gt_cases 0 (- (e + Zpos n))) as [Hle|Hgt].
      * apply Z.div_le_lower_bound; [lia|].
        replace (- e) with (Zpos n + - (e + Zpos n)) in Hge by lia.
        rewrite Z.pow_add_r in Hge by lia. lia.
      * rewrite Z.pow_neg_r by lia.
        assert (0 < 2 ^ 52) by (apply Z.pow_pos_nonneg; lia). lia.
  - rewrite shr_record_of_loc_m.
    assert (2 ^ d <= 2 ^ 53) by (apply Z.pow_le_mono_r; lia).
    repeat split; lia.
Qed.

Lemma round_nearest_even_at_least_one (m e : Z) (l : location) :
  at_least_one m e -> at_least_one (round_nearest_even m l) e.
Proof.
  intros [Hpos Hge]. unfold at_least_one.
  destruct l as [|[]]; simpl; try lia. destruct (Z.even m); lia.
Qed.

(** Rounding a number of at least 1 gives a number of at least 1. *)
Lemma binary_round_aux_at_least_one (m e : Z) (l : location) :
  at_least_one m e ->
  SFleb (S754_finite false 4503599627370496 (-52))
    (binary_round_aux prec emax false m e l) = true.
Proof.
  intros Hm. unfold binary_round_aux.
  pose proof (shr_fexp_at_least_one m e l Hm) as [_ H1].
  destruct (shr_fexp prec emax m e l) as [mrs' e']. cbn [fst snd] in H1.
  apply (round_nearest_even_at_least_one _ _ (loc_of_shr_record mrs')) in H1.
  pose proof (shr_fexp_at_least_one _ e' loc_Exact H1) as [[Hpos Hlt] [_ Hge]].
  destruct (shr_fexp prec emax _ e' loc_Exact) as [mrs'' e'']. cbn [fst snd] in *.
  destruct (shr_m mrs'') as [|p|p]; try lia.
  destruct (e'' <=? emax - prec); [|reflexivity].
  unfold SFleb, SFcompare.
  destruct (Z.compare_spec (-52) e'') as [Heq|Hlt'|Hgt]; [|reflexivity|exfalso].
  - subst e''. change (2 ^ (- -52)) with 4503599627370496 in Hge.
    rewrite Pos.compare_cont_spec. simpl.
    destruct (Pos.compare_spec 4503599627370496 p) as [?|?|Hp]; try reflexivity.
    apply Pos2Z.pos_lt_pos in Hp. clear -Hge Hp. lia.
  - assert (2 ^ 53 <= 2 ^ (- e'')) by (apply Z.pow_le_mono_r; lia).
    clear -Hlt Hge H. lia.
Qed.


(** Positive numbers in canonical form: a mantissa of at most 53 bits, of
    53 bits exactly unless the exponent is the least one. *)
Lemma bounded_mantissa (m : positive) (e : Z) :
  bounded prec emax m e = true ->
  -1074 <= e /\ Zpos m < 2 ^ 53 /\ (-1074 < e -> 2 ^ 52 <= Zpos m).
Proof.
  unfold bounded, canonical_mantissa, fexp, SpecFloat.emin, prec, emax.
  intros [Hcan _]%andb_true_iff. apply Z.eqb_eq in Hcan.
  pose proof (digits2_pos_bounds m) as [Hlo Hhi].
  set (d := Zpos (digits2_pos m)) in *.
  split; [lia|]. split.
  - assert (2 ^ d <= 2 ^ 53) by (apply Z.pow_le_mono_r; lia). lia.
  - intros He. replace (d - 1) with 52 in Hlo by lia. exact Hlo.
Qed.

(** The quotient of [x] by [y] before rounding, for [0 < y <= x]. *)
Lemma SFdiv_core_binary_at_least_one (mx my : positive) (ex ey : Z) :
  bounded prec emax mx ex = true -> bounded prec emax my ey = true ->
  SFleb (S754_finite false my ey) (S754_finite false mx ex) = true ->
  at_least_one (SFdiv_core_binary prec emax (Zpos mx) ex (Zpos my) ey).1.1
    (SFdiv_core_binary prec emax (Zpos mx) ex (Zpos my) ey).1.2.
Proof.
  intros Hbx Hby Hle.
  pose proof (bounded_mantissa _ _ Hbx) as (Hex & Hmx & Hnx).
  pose proof (bounded_mantissa _ _ Hby) as (Hey & Hmy & Hny).
  assert (Hexp : ey <= ex /\ Zpos my <= Zpos mx * 2 ^ (ex - ey)).
  { unfold SFleb, SFcompare in Hle.
    destruct (Z.compare_spec ey ex) as [->|Hlt|Hgt]; [| |discriminate].
    - rewrite Pos.compare_cont_spec in Hle. simpl in Hle.
      destruct (Pos.compare_spec my mx) as [->|Hm|Hm]; try discriminate.
      + rewrite Z.sub_diag. simpl. lia.
      + rewrite Z.sub_diag. apply Pos2Z.pos_lt_pos in Hm. simpl. lia.
    - split; [lia|]. specialize (Hnx ltac:(lia)).
      assert (2 ^ 1 <= 2 ^ (ex - ey)) by (apply Z.pow_le_mono_r; lia).
      change (2 ^ 1) with 2 in *. change (2 ^ 52) with 4503599627370496 in *.
      change (2 ^ 53) with 9007199254740992 in *. nia. }
  destruct Hexp as [Hee Hxy].
  unfold SFdiv_core_binary, Zdigits2.
  pose proof (digits2_pos_bounds mx) as [Hlo1 Hhi1].
  pose proof (digits2_pos_bounds my) as [Hlo2 Hhi2].
  set (d1 := Zpos (digits2_pos mx)) in *. set (d2 := Zpos (digits2_pos my)) in *.
  set (e' := Z.min _ _).
  assert (He' : e' <= ex - ey) by (subst e'; lia).
  assert (Hd1 : d1 <= 53).
  { destruct (Z.le_gt_cases d1 53) as [|Hgt]; [assumption|exfalso].
    assert (2 ^ 53 <= 2 ^ (d1 - 1)) by (apply Z.pow_le_mono_r; lia). lia. }
  assert (Hs : 0 < e' -> d2 <= ex - ey - e').
  { intros Hpos. subst e'. unfold fexp, SpecFloat.emin, prec, emax in *. lia. }
  set (s := ex - ey - e') in *.
  set (m' := match s with Zpos _ => _ | Z0 => _ | Zneg _ => _ end).
  assert (Hm' : m' = Zpos mx * 2 ^ s).
  { subst m'. destruct s eqn:Hseq; [simpl; lia | | lia].
    rewrite Z.shiftl_mul_pow2 by lia. reflexivity. }
  assert (Hq : 0 < m' / Zpos my /\ 2 ^ (- e') <= m' / Zpos my).
  { rewrite Hm'. destruct (Z.le_gt_cases e' 0) as [Hneg|Hpos].
    - assert (Hge : 2 ^ (- e') <= Zpos mx * 2 ^ s / Zpos my).
      { apply Z.div_le_lower_bound; [lia|].
        replace s with ((ex - ey) + - e') by (subst s; lia).
        rewrite Z.pow_add_r by lia.
        assert (0 < 2 ^ (- e')) by (apply Z.pow_pos_nonneg; lia). nia. }
      assert (0 < 2 ^ (- e')) by (apply Z.pow_pos_nonneg; lia). lia.
    - rewrite (Z.pow_neg_r 2 (- e')) by lia.
      assert (1 <= Zpos mx * 2 ^ s / Zpos my); [|lia].
      apply Z.div_le_lower_bound; [lia|].
      assert (2 ^ d2 <= 2 ^ s) by (apply Z.pow_le_mono_r; [lia|apply Hs, Hpos]).
      nia. }
  unfold Z.div in Hq. destruct (Z.div_eucl m' (Zpos my)) as [q r]. exact Hq.
Qed.

End DigitFacts.

Section QuotientFacts.

(** Rounding a mantissa that is not negative, with the sign of a negative
    number, gives a zero, a negative number or minus infinity. *)
Lemma binary_round_aux_nonpos (m e : Z) (l : location) :
  (0 <= m)%Z ->
  SFleb (binary_round_aux prec emax true m e l) (S754_zero false) = true.
Proof.
  intros Hm. unfold binary_round_aux.
  pose proof (shr_fexp_nonneg m e l Hm) as H1.
  destruct (shr_fexp prec emax m e l) as [mrs' e']. simpl in H1.
  pose proof (shr_fexp_nonneg _ e' loc_Exact
                (round_nearest_even_nonneg _ (loc_of_shr_record mrs') H1)) as H2.
  destruct (shr_fexp prec emax _ e' loc_Exact) as [mrs'' e'']. simpl in H2.
  destruct (shr_m mrs'') as [|p|p]; [reflexivity | | lia].
  destruct (e'' <=? emax - prec)%Z; reflexivity.
Qed.

Lemma positive_finite_spec (y : float) :
  (0 <? y)%float = true -> (y <? infinity)%float = true ->
  exists m e, Prim2SF y = S754_finite false m e /\ bounded prec emax m e = true.
Proof.
  rewrite !FloatAxioms.ltb_spec. pose proof (Prim2SF_valid y) as Hvalid.
  replace (Prim2SF 0) with (S754_zero false) by (vm_compute; reflexivity).
  replace (Prim2SF infinity) with (S754_infinity false) by (vm_compute; reflexivity).
  destruct (Prim2SF y) as [s|s| |s m e]; try destruct s; try discriminate.
  intros _ _. exists m, e. split; [reflexivity | exact Hvalid].
Qed.

(** A number divided by a positive number that is not above it: the
    quotient, rounded, is at least 1. *)
Lemma div_at_least_one (x y : float) :
  (0 <? y)%float = true -> (y <? infinity)%float = true ->
  (y <=? x)%float = true -> (1 <=? x / y)%float = true.
Proof.
  intros Hpos Hfin. destruct (positive_finite_spec y Hpos Hfin) as (my & ey & Hy & Hby).
  rewrite !FloatAxioms.leb_spec, FloatAxioms.div_spec, Hy.
  replace (Prim2SF 1) with (S754_finite false 4503599627370496 (-52))
    by (vm_compute; reflexivity).
  pose proof (Prim2SF_valid x) as Hbx.
  destruct (Prim2SF x) as [s|s| |s mx ex]; try destruct s; try discriminate.
  - intros _. reflexivity.
  - intros Hle. unfold SF64div, SFdiv. cbn [xorb].
    pose proof (SFdiv_core_binary_at_least_one mx my ex ey Hbx Hby Hle) as Hcore.
    destruct (SFdiv_core_binary prec emax (Zpos mx) ex (Zpos my) ey) as [[mz ez] lz].
    apply binary_round_aux_at_least_one, Hcore.
Qed.

(** A number that is at most 0 divided by a positive number: the quotient
    is at most 0. *)
Lemma div_at_most_zero (x y : float) :
  (0 <? y)%float = true -> (y <? infinity)%float = true ->
  (x <=? 0)%float = true -> (x / y <=? 0)%float = true.
Proof.
  intros Hpos Hfin. destruct (positive_finite_spec y Hpos Hfin) as (my & ey & Hy & Hby).
  rewrite !FloatAxioms.leb_spec, FloatAxioms.div_spec, Hy.
  replace (Prim2SF 0) with (S754_zero false) by (vm_compute; reflexivity).
  destruct (Prim2SF x) as [s|s| |s mx ex]; try destruct s; try discriminate;
    try reflexivity.
  intros _. unfold SF64div, SFdiv, SFdiv_core_binary. cbn [xorb].
  set (m' := match _ with Zpos _ => _ | Z0 => _ | Zneg _ => _ end).
  assert (Hm' : (0 <= m')%Z).
  { subst m'. destruct (_ - _ - _)%Z; try lia. apply Z.shiftl_nonneg. lia. }
  pose proof (Z.div_pos m' (Zpos my) Hm' ltac:(lia)) as Hq.
  unfold Z.div in Hq. destruct (Z.div_eucl m' (Zpos my)) as [q r].
  apply binary_round_aux_nonpos, Hq.
Qed.

End QuotientFacts.

Section RefusedSpec.
Context `{SciPy}.

(** For a positive Nyquist frequency, a cutoff that is at most 0 or at
    least Nyquist gives a critical frequency outside ]0, 1[. *)
Lemma invalid_cutoff_outside_unit (cutoff fs : float) :
  positive_nyquist fs = true -> invalid_cutoff cutoff fs = true ->
  outside_unit (cutoff / (0.5 * fs))%float = true.
Proof.
  unfold positive_nyquist, invalid_cutoff, outside_unit.
  intros [Hpos Hfin]%andb_true_iff [Hlow|Hhigh]%orb_true_iff; apply orb_true_iff.
  - left. apply div_at_most_zero; assumption.
  - right. apply div_at_least_one; assumption.
Qed.

Lemma combined_filter_raises_value_error data lowcut highcut fs order e :
  scipy_raises_value_error ->
  combined_filter data lowcut highcut fs order = Raise e -> e = ValueError.
Proof.
  intros [Hbutter Hfiltfilt]. unfold combined_filter, mbind, result_bind.
  destruct (butter _ _ lowpass) as [[b_low a_low]|e1] eqn:Hlow.
  2:{ intros [= <-]. exact (Hbutter _ _ _ _ Hlow). }
  destruct (filtfilt b_low a_low data) as [low_passed|e1] eqn:Hlp.
  2:{ intros [= <-]. exact (Hfiltfilt _ _ _ _ Hlp). }
  destruct (butter _ _ highpass) as [[b_high a_high]|e1] eqn:Hhigh.
  2:{ intros [= <-]. exact (Hbutter _ _ _ _ Hhigh). }
  apply Hfiltfilt.
Qed.

Lemma combined_filter_refused data lowcut highcut fs order :
  butter_refuses ->
  outside_unit (lowcut / (0.5 * fs))%float = true \/
  outside_unit (highcut / (0.5 * fs))%float = true ->
  exists e, combined_filter data lowcut highcut fs order = Raise e.
Proof.
  intros Hrefuse Hbad. unfold combined_filter, mbind, result_bind.
  destruct (butter _ (lowcut / _)%float lowpass) as [[b_low a_low]|e] eqn:Hlow;
    [|eauto].
  destruct (filtfilt b_low a_low data) as [low_passed|e] eqn:Hf; [|eauto].
  destruct (butter _ (highcut / _)%float highpass) as [[b_high a_high]|e] eqn:Hhigh;
    [|eauto].
  exfalso. destruct Hbad as [Hbad|Hbad].
  - destruct (Hrefuse (default 5 order) _ lowpass Hbad) as [e He]. congruence.
  - destruct (Hrefuse (default 5 order) _ highpass Hbad) as [e He]. congruence.
Qed.

End RefusedSpec.

Lemma reference_scipy_raises_value_error :
  @scipy_raises_value_error Reference.scipy.
Proof.
  split.
  - intros order Wn bt e. simpl. unfold Reference.butter_ref.
    destruct (_ || _); [congruence|]. destruct bt; discriminate.
  - intros b a x e. simpl. unfold Reference.filtfilt_ref.
    destruct (_ <=? _); [congruence | discriminate].
Qed.

(** C6, amended.  [combined_filter] checks nothing itself and has no
    InvalidSpecError: the refusal is the package's, a ValueError.  When
    the package refuses a critical frequency outside ]0, 1[ and an input no
    longer than three times the number of coefficients, and raises nothing
    but ValueError, then for a positive Nyquist frequency [0.5 * fs] the
    call fails as a whole with ValueError, returning no signal, whenever a
    cutoff is at most 0 or at least the Nyquist frequency, or the signal
    has at most [3 * (order + 1)] samples. *)
Theorem combined_filter_fails_on_invalid_spec `{SciPy}
    (Hrefuse : butter_refuses) (Hshape : butter_shape)
    (Hshort : filtfilt_refuses_short) (Honly : scipy_raises_value_error)
    (data : list float) (lowcut highcut fs : float) (order : option nat) :
  positive_nyquist fs = true ->
  invalid_cutoff lowcut fs = true \/
  invalid_cutoff highcut fs = true \/
  length data <= 3 * S (default 5 order) ->
  combined_filter data lowcut highcut fs order = Raise ValueError.
Proof.
  intros Hfs Hbad.
  assert (Hraise : exists e, combined_filter data lowcut highcut fs order = Raise e).
  { destruct Hbad as [Hbad|[Hbad|Hbad]].
    - apply combined_filter_refused; [exact Hrefuse|]. left.
      apply invalid_cutoff_outside_unit; assumption.
    - apply combined_filter_refused; [exact Hrefuse|]. right.
      apply invalid_cutoff_outside_unit; assumption.
    - apply combined_filter_short; assumption. }
  destruct Hraise as [e He]. rewrite He. f_equal.
  exact (combined_filter_raises_value_error _ _ _ _ _ _ Honly He).
Qed.

Lemma combined_filter_fails_witness :
  @combined_filter Reference.scipy (Reference.ramp 19) 500 20 1000 None = Raise ValueError
  /\ @combined_filter Reference.scipy (Reference.ramp 19) 0.5 0 1000 None = Raise ValueError
  /\ @combined_filter Reference.scipy (Reference.ramp 18) 0.5 20 1000 None = Raise ValueError.
Proof.
  split; [|split].
  - apply (@combined_filter_fails_on_invalid_spec Reference.scipy
             reference_butter_refuses reference_butter_shape
             reference_filtfilt_refuses_short reference_scipy_raises_value_error).
    + vm_compute. reflexivity.
    + left. vm_compute. reflexivity.
  - apply (@combined_filter_fails_on_invalid_spec Reference.scipy
             reference_butter_refuses reference_butter_shape
             reference_filtfilt_refuses_short reference_scipy_raises_value_error).
    + vm_compute. reflexivity.
    + right. left. vm_compute. reflexivity.
  - apply (@combined_filter_fails_on_invalid_spec Reference.scipy
             reference_butter_refuses reference_butter_shape
             reference_filtfilt_refuses_short reference_scipy_raises_value_error).
    + vm_compute. reflexivity.
    + right. right. simpl. lia.
Defined.

(** C6, counterexample: at the sample rate -1000 the cutoffs -100, both at
    most 0, give the critical frequency 0.2: the package accepts them and
    the call returns a signal.  And the failure for a cutoff at the Nyquist
    frequency is the package's ValueError. *)
Lemma negative_rate_cutoffs_are_accepted :
  invalid_cutoff (-100) (-1000) = true
  /\ outside_unit (normalized (-100) (-1000)) = false
  /\ is_ok (@combined_filter Reference.scipy (Reference.ramp 19) (-100) (-100) (-1000) None)
     = true
  /\ @combined_filter Reference.scipy (Reference.ramp 19) 500 20 1000 None
     = Raise ValueError.
Proof. repeat split; vm_compute; reflexivity. Qed.

(** * The running loop *)

Section RunningLoop.
Context `{SciPy} `{NumPy} `{PyWavelets}.

(** Every message the loop gets through is pushed once, in its turn. *)
Lemma analysis_loop_messages cfg stream (datas : list record) (h h' : heap)
    (buf : list record) (w : list effect) :
  h !! stream = Some buf ->
  analysis_loop cfg stream (WsMessage <$> datas) h = (h', (w, Receiving)) ->
  h' !! stream = Some (fold_left Buffer.push datas buf).
Proof.
  revert h buf w. induction datas as [|data datas IH]; intros h buf w Hbuf.
  - simpl. intros [= <- _]. exact Hbuf.
  - rewrite fmap_cons. cbn [analysis_loop fold_left].
    rewrite (next_message _ _ _ _ Hbuf).
    destruct (cycle cfg _) as [w1 [[]|e]]; [|discriminate].
    destruct (analysis_loop cfg stream (WsMessage <$> datas) _)
      as [h2 [w2 s2]] eqn:Hrest.
    intros [= <- _ ->]. eapply IH; [apply lookup_insert_eq | exact Hrest].
Qed.

(** An accepted decomposition is plotted with one trace for each level. *)
Lemma plot_dwt_analysis_accepted timestamp signal title wavelet level graph_type :
  wavedec_check signal wavelet level = None ->
  exists fig,
    plot_dwt_analysis timestamp signal title wavelet level graph_type
      = ([st_plotly_chart fig], Ok tt)
    /\ length (fig_traces fig) = level.
Proof.
  intros Hcheck.
  pose proof (plot_dwt_analysis_result timestamp signal title wavelet level graph_type)
    as Hplot.
  unfold wavedec in Hplot. rewrite Hcheck in Hplot.
  destruct Hplot as (fig & Hfig & Hlen). exists fig. split; [exact Hfig|].
  rewrite Hlen, wavedec_loop_length. simpl. lia.
Qed.

End RunningLoop.

(** While the run goes on the buffer holds the latest records.  When the
    script has got through the messages [datas] and waits for the next,
    the list it created holds the last 99 of them, in their order of
    arrival, or all of them while there are at most 99. *)
Theorem running_loop_holds_the_latest `{SciPy} `{NumPy} `{PyWavelets}
    (cfg : config) (datas : list record) (h h' : heap) (w : list effect) :
  main cfg true None (WsMessage <$> datas) h = (h', (w, Receiving)) ->
  h' !! fresh (dom h) = Some (drop (length datas - 99) datas).
Proof.
  unfold main, Generator.new_list.
  destruct (analysis_loop cfg (fresh (dom h)) (WsMessage <$> datas)
              (<[fresh (dom h) := []]> h)) as [h1 [w1 s1]] eqn:Hloop.
  intros [= <- _ ->].
  rewrite (analysis_loop_messages _ _ _ _ _ [] _ (lookup_insert_eq _ _ _) Hloop).
  f_equal. apply (pushes_drop 99).
Qed.

Lemma running_loop_holds_the_latest_witness :
  let partial : record := <["Time" := 1%float]> ∅ in
  (@main Reference.scipy Reference.numpy Reference.pywt Reference.default_config
     true None (WsMessage <$> [partial; partial]) ∅).1 !! fresh (dom (∅ : heap))
    = Some (drop (length [partial; partial] - 99) [partial; partial]).
Proof.
  cbv zeta.
  destruct (@main Reference.scipy Reference.numpy Reference.pywt
              Reference.default_config true None
              (WsMessage <$> [<["Time" := 1%float]> ∅; <["Time" := 1%float]> ∅]) ∅)
    as [h' [w s]] eqn:Hrun.
  destruct s; try (vm_compute in Hrun; discriminate).
  exact (@running_loop_holds_the_latest Reference.scipy Reference.numpy
           Reference.pywt Reference.default_config
           [<["Time" := 1%float]> ∅; <["Time" := 1%float]> ∅] ∅ h' w Hrun).
Defined.

(** A cycle that completes with data draws three charts.  When
    [process_data] has returned and the package accepts the wavelet and
    the level for each filtered signal, the cycle shows, after the
    statistics, the success message, then for X, Y and Z in this order a
    heading and one chart with as many traces as the level, and it ends
    with the pause. *)
Theorem completed_cycle_draws_three_charts `{SciPy} `{NumPy} `{PyWavelets}
    (cfg : config) (data : list record) (page : list effect)
    (timestamp x y z : list float) :
  process_data data (cfg_lowcut cfg) (cfg_highcut cfg) (cfg_wavelet_type cfg)
    (cfg_decomposition_level cfg) None
    = (page, Ok (Some (timestamp, x, y, z))) ->
  wavedec_check x (cfg_wavelet_type cfg) (cfg_decomposition_level cfg) = None ->
  wavedec_check y (cfg_wavelet_type cfg) (cfg_decomposition_level cfg) = None ->
  wavedec_check z (cfg_wavelet_type cfg) (cfg_decomposition_level cfg) = None ->
  exists fig_x fig_y fig_z : figure,
    cycle cfg data
      = (page ++ [st_success; st_columns 3;
                  st_write "### X-Axis Vibration Analysis"; st_plotly_chart fig_x;
                  st_write "### Y-Axis Vibration Analysis"; st_plotly_chart fig_y;
                  st_write "### Z-Axis Vibration Analysis"; st_plotly_chart fig_z;
                  time_sleep],
         Ok tt)
    /\ length (fig_traces fig_x) = cfg_decomposition_level cfg
    /\ length (fig_traces fig_y) = cfg_decomposition_level cfg
    /\ length (fig_traces fig_z) = cfg_decomposition_level cfg.
Proof.
  intros Hdata Hx Hy Hz.
  destruct (plot_dwt_analysis_accepted timestamp x "X-Axis Vibration"
              _ _ (cfg_graph_type cfg) Hx) as (fig_x & Hfx & Hlx).
  destruct (plot_dwt_analysis_accepted timestamp y "Y-Axis Vibration"
              _ _ (cfg_graph_type cfg) Hy) as (fig_y & Hfy & Hly).
  destruct (plot_dwt_analysis_accepted timestamp z "Z-Axis Vibration"
              _ _ (cfg_graph_type cfg) Hz) as (fig_z & Hfz & Hlz).
  exists fig_x, fig_y, fig_z. split; [|auto].
  unfold cycle. rewrite Hdata. unfold mbind, ui_bind, emit.
  rewrite Hfx, Hfy, Hfz. reflexivity.
Qed.

Lemma completed_cycle_draws_three_charts_witness :
  exists (page : list effect) (fig_x fig_y fig_z : figure),
    @cycle Reference.scipy Reference.numpy Reference.pywt Reference.default_config
      (Reference.readings 19)
      = (page ++ [st_success; st_columns 3;
                  st_write "### X-Axis Vibration Analysis"; st_plotly_chart fig_x;
                  st_write "### Y-Axis Vibration Analysis"; st_plotly_chart fig_y;
                  st_write "### Z-Axis Vibration Analysis"; st_plotly_chart fig_z;
                  time_sleep],
         Ok tt)
    /\ length (fig_traces fig_x) = 3.
Proof.
  destruct (@process_data Reference.scipy Reference.numpy (Reference.readings 19)
              (cfg_lowcut Reference.default_config)
              (cfg_highcut Reference.default_config)
              (cfg_wavelet_type Reference.default_config)
              (cfg_decomposition_level Reference.default_config) None)
    as [page r] eqn:Hdata.
  destruct r as [[[[[timestamp x] y] z]|]|e];
    [|vm_compute in Hdata; discriminate..].
  destruct (@completed_cycle_draws_three_charts Reference.scipy Reference.numpy
              Reference.pywt Reference.default_config (Reference.readings 19)
              page timestamp x y z Hdata eq_refl eq_refl eq_refl)
    as (fig_x & fig_y & fig_z & Hcycle & Hlx & _).
  exists page, fig_x, fig_y, fig_z. split; [exact Hcycle | exact Hlx].
Defined.
